(** * The Listening Booth events pipeline: fetch, enrich, classify, report

    A shallow embedding of the ticket-sales pipeline of
    [final-ticket-manager.js], of the upcoming/past split of
    [venue-manager.js] and of the attendance enrichment of
    [simplified-venue-manager.js], with the properties the specification
    states about them.

    Conventions of the embedding.
    - Counts and millisecond timestamps are integers ([Z]).  A JavaScript
      number that may be [NaN] (the time value of a [Date], the result of
      subtracting two dates) is an [option Z], [None] standing for [NaN].
    - Quotients ([Math.round (a / b * 10) / 10], [Math.ceil (ms / 86400000)])
      are computed over the rationals [Q].
    - Strings are sequences of 8-bit code units; [toLowerCase] acts on the
      letters [A]-[Z].
    - The upstream service, the clock and the timer are an interface
      ([Upstream]); every asynchronous method threads the state of that
      interface explicitly. *)

From Stdlib Require Import ZArith QArith Qround List String Ascii Bool Lia.
From Stdlib Require Import Permutation Sorted Lqa.
Import ListNotations.

Local Open Scope string_scope.
Local Open Scope list_scope.
Local Open Scope Z_scope.

(** ** JavaScript built-ins used by the scripts *)

Module JS.

(** [String.prototype.toLowerCase], one code unit. *)
Definition lowerChar (c : ascii) : ascii :=
  let n := nat_of_ascii c in
  if ((65 <=? n) && (n <=? 90))%nat then ascii_of_nat (n + 32) else c.

Fixpoint toLowerCase (s : string) : string :=
  match s with
  | EmptyString => EmptyString
  | String c s' => String (lowerChar c) (toLowerCase s')
  end.

(** [s.startsWith(needle)]. *)
Fixpoint startsWith (s needle : string) : bool :=
  match needle, s with
  | EmptyString, _ => true
  | String _ _, EmptyString => false
  | String a needle', String b s' => Ascii.eqb a b && startsWith s' needle'
  end.

(** [s.includes(needle)]: [needle] occurs at some position of [s]. *)
Fixpoint includes (s needle : string) : bool :=
  startsWith s needle ||
  match s with
  | EmptyString => false
  | String _ s' => includes s' needle
  end.

(** [x || d] on a possibly absent number: [undefined], and [0], give [d]. *)
Definition numOr (x : option Z) (d : Z) : Z :=
  match x with
  | Some v => if v =? 0 then d else v
  | None => d
  end.

(** [x || d] on a possibly absent array. *)
Definition arrOr {A : Type} (x : option (list A)) (d : list A) : list A :=
  match x with
  | Some l => l
  | None => d
  end.

(** [x || d] on a possibly absent string: the empty string is falsy. *)
Definition strOr (x : option string) (d : string) : string :=
  match x with
  | Some EmptyString => d
  | Some s => s
  | None => d
  end.

(** [Math.round]: the nearest integer, ties towards +infinity. *)
Definition Math_round (x : Q) : Z := Qfloor (x + (1 # 2)).

(** [Math.ceil]. *)
Definition Math_ceil (x : Q) : Z := Qceiling x.

(** [arr.slice(0, e)]: a negative [e] counts from the end. *)
Definition slice0 {A : Type} (e : Z) (l : list A) : list A :=
  if e <? 0 then firstn (Z.to_nat (Z.of_nat (List.length l) + e)) l
  else firstn (Z.to_nat e) l.

(** [Array.prototype.sort (comparefn)].  The sort is stable; a comparator
    result of [NaN] counts as [+0].  On a comparator that is a consistent
    ordering every stable sort returns the list computed here; on an
    inconsistent comparator the order is implementation-defined and this
    is one admissible outcome. *)
Section Sort.
Context {A : Type} (comparefn : A -> A -> option Z).

Definition sortCompare (x y : A) : Z :=
  match comparefn x y with
  | Some v => v
  | None => 0
  end.

Fixpoint insert (x : A) (l : list A) : list A :=
  match l with
  | [] => [x]
  | y :: l' => if sortCompare x y <=? 0 then x :: l else y :: insert x l'
  end.

Definition sort (l : list A) : list A := fold_right insert [] l.
End Sort.

(** [a - b] on numbers that may be [NaN]. *)
Definition sub (a b : option Z) : option Z :=
  match a, b with
  | Some x, Some y => Some (x - y)
  | _, _ => None
  end.

(** [a > b] and [a <= b]: any comparison with [NaN] is false. *)
Definition gt (a b : option Z) : bool :=
  match a, b with
  | Some x, Some y => y <? x
  | _, _ => false
  end.

Definition le (a b : option Z) : bool :=
  match a, b with
  | Some x, Some y => x <=? y
  | _, _ => false
  end.

End JS.

(** ** Classifier ([final-ticket-manager.js]) *)

(** [categorizeEvent(title)]. *)
Definition categorizeEvent (title : string) : string :=
  let titleLower := JS.toLowerCase title in
  if JS.includes titleLower "open mic" then "Open Mic"
  else if JS.includes titleLower "jam" then "Jam Session"
  else if JS.includes titleLower "lessons" || JS.includes titleLower "songwriting"
       then "Workshop"
  else if JS.includes titleLower "fundraiser" then "Fundraiser"
  else "Concert".

(** [isRSVPEvent(title)]. *)
Definition isRSVPEvent (title : string) : bool :=
  let titleLower := JS.toLowerCase title in
  JS.includes titleLower "open mic" ||
  JS.includes titleLower "jam" ||
  JS.includes titleLower "lessons".

(** The "Determine sales status" block of [getUpcomingEventsWithTickets]:
<<
    let salesStatus = 'low';
    if (daysFromNow <= 7 && ticketsSold === 0) salesStatus = 'urgent';
    else if (ticketsSold >= 25) salesStatus = 'high';
    else if (ticketsSold >= 10) salesStatus = 'medium';
>> *)
Definition salesStatusOf (ticketsSold : Z) (daysFromNow : option Z) : string :=
  if JS.le daysFromNow (Some 7) && (ticketsSold =? 0) then "urgent"
  else if 25 <=? ticketsSold then "high"
  else if 10 <=? ticketsSold then "medium"
  else "low".

(** ** Data model *)

(** An event record of the upstream service, with the fields the scripts
    read: [id], [title], [scheduling?.config?.startDate],
    [scheduling?.formatted], [location?.name] and [slug]. *)
Record Event := {
  id : string;
  title : string;
  startDate : option string;
  formatted : option string;
  locationName : option string;
  slug : option string
}.

(** A ticket record; only the truthiness of [ticket.free] is read. *)
Record Ticket := { free : bool }.

(** A rejected request: [error.response?.status] and [error.message]. *)
Record HttpError := {
  status : option Z;
  message : string
}.

(** [response.data] of the event list: [{ events, total }]. *)
Record EventsBody := {
  page_events : option (list Event);
  page_total : option Z
}.

(** [response.data] of the tickets of one event: [{ tickets, total }]. *)
Record TicketsBody := {
  data_tickets : option (list Ticket);
  data_total : option Z
}.

(** [response.data] of the RSVPs of one event: only [total] is read. *)
Record RsvpsBody := { rsvps_total : option Z }.

(** [response.data] of the bookings of one event: only [bookings?.length]
    is read, so a booking is kept as its identifier. *)
Record BookingsBody := { bookings : option (list string) }.

(** What [getEventTickets] returns. *)
Record TicketsResult := {
  success : bool;
  error : option string;
  tickets : list Ticket;
  total : Z
}.

(** An element of [eventsWithTickets]: the event ([...event]) and the
    derived fields. *)
Record EnrichedEvent := {
  event : Event;
  ticketsSold : Z;
  paidTickets : Z;
  freeTickets : Z;
  daysFromNow : option Z;
  salesStatus : string;
  eventType : string;
  venue : string;
  isPaid : bool;
  isFree : bool;
  isRSVPOnly : bool
}.

(** [{ success: true, ... }] or [{ success: false, error }]. *)
Inductive Outcome (A : Type) : Type :=
| Success (value : A)
| Failure (error_message : string).
Arguments Success {A} value.
Arguments Failure {A} error_message.

(** The successful result of [getUpcomingEventsWithTickets]. *)
Record EventsData := {
  events : list EnrichedEvent;
  events_total : Z;
  generatedAt : Z
}.

(** ** The upstream service, the clock and the timer

    [World] is the state of everything outside the process.  A request
    answers with a body or is rejected, and moves the world on. *)
Class Upstream := {
  World : Type;
  (** the time value of [new Date(s)]; [None] is [Invalid Date] *)
  Date_parse : string -> option Z;
  (** [new Date()] *)
  Date_now : World -> Z * World;
  (** [await this.delay(ms)] *)
  setTimeout : Z -> World -> World;
  (** [GET /events/v1/events?limit=..&offset=..] *)
  get_events : Z -> Z -> World -> (HttpError + EventsBody) * World;
  (** [GET /events/v1/events/:id/tickets?limit=100] *)
  get_tickets : string -> World -> (HttpError + TicketsBody) * World;
  (** [GET /events/v1/events/:id/rsvps] *)
  get_rsvps : string -> World -> (HttpError + RsvpsBody) * World;
  (** [GET /bookings/v2/bookings?eventId=:id] *)
  get_bookings : string -> World -> (HttpError + BookingsBody) * World
}.

Definition len {A : Type} (l : list A) : Z := Z.of_nat (List.length l).

Section FinalTicketManager.
Context {U : Upstream}.

(** [new Date(event.scheduling?.config?.startDate)]: an absent field gives
    [Invalid Date]. *)
Definition new_Date (s : option string) : option Z :=
  match s with
  | Some text => Date_parse text
  | None => None
  end.

Definition is429 (err : HttpError) : bool :=
  match status err with
  | Some code => code =? 429
  | None => false
  end.

(** The tagged results of [getEventTickets]. *)
Definition ticketsOk (data : TicketsBody) : TicketsResult :=
  {| success := true; error := None;
     tickets := JS.arrOr (data_tickets data) [];
     total := JS.numOr (data_total data) 0 |}.

Definition ticketsFailed (err : HttpError) : TicketsResult :=
  {| success := false; error := Some (message err); tickets := []; total := 0 |}.

(** The loop of [getEventTickets]; [remaining] is the number of iterations
    left before [attempt <= retries] fails.  Falling off the loop returns
    [undefined] ([None]). *)
Fixpoint getEventTickets_from (remaining : nat) (attempt retries : Z)
         (eventId : string) (w : World) : option TicketsResult * World :=
  match remaining with
  | O => (None, w)
  | S remaining' =>
      match get_tickets eventId w with
      | (inr data, w1) => (Some (ticketsOk data), w1)
      | (inl err, w1) =>
          if is429 err && (attempt <? retries) then
            getEventTickets_from remaining' (attempt + 1) retries eventId
                                 (setTimeout (attempt * 2000) w1)
          else (Some (ticketsFailed err), w1)
      end
  end.

Definition getEventTickets (eventId : string) (retries : Z) (w : World)
  : option TicketsResult * World :=
  getEventTickets_from (Z.to_nat retries) 1 retries eventId w.

(** [Math.ceil((eventDate - new Date()) / (1000 * 60 * 60 * 24))]. *)
Definition daysUntil (eventDate : option Z) (now : Z) : option Z :=
  match JS.sub eventDate (Some now) with
  | Some ms => Some (JS.Math_ceil (inject_Z ms / inject_Z (1000 * 60 * 60 * 24)))
  | None => None
  end.

(** The body of the enrichment loop of [getUpcomingEventsWithTickets], from
    the ticket result and the clock reading to the pushed object. *)
Definition enrichEvent (ev : Event) (ticketsResult : TicketsResult) (now : Z)
  : EnrichedEvent :=
  let sold := total ticketsResult in
  let eventDate := new_Date (startDate ev) in
  let days := daysUntil eventDate now in
  let paid := filter (fun ticket => negb (free ticket)) (tickets ticketsResult) in
  let freeOnes := filter (fun ticket => free ticket) (tickets ticketsResult) in
  let isPaidEvent := 0 <? len paid in
  let isFreeEvent := (len freeOnes =? sold) && (0 <? sold) in
  let rsvpOnly := (sold =? 0) && isRSVPEvent (title ev) in
  {| event := ev;
     ticketsSold := sold;
     paidTickets := len paid;
     freeTickets := len freeOnes;
     daysFromNow := days;
     salesStatus := salesStatusOf sold days;
     eventType := categorizeEvent (title ev);
     venue := JS.strOr (locationName ev) "The Listening Booth";
     isPaid := isPaidEvent;
     isFree := isFreeEvent;
     isRSVPOnly := rsvpOnly |}.

(** The enrichment loop.  [None] is the [TypeError] of reading [.total] of
    an [undefined] ticket result, which the enclosing [try] catches. *)
Fixpoint enrichLoop (upcomingEvents : list Event) (w : World)
  : option (list EnrichedEvent) * World :=
  match upcomingEvents with
  | [] => (Some [], w)
  | ev :: rest =>
      match getEventTickets (id ev) 3 w with
      | (None, w1) => (None, w1)
      | (Some ticketsResult, w1) =>
          let '(now, w2) := Date_now w1 in
          let enriched := enrichEvent ev ticketsResult now in
          let w3 := match rest with
                    | [] => w2
                    | _ :: _ => setTimeout 1000 w2
                    end in
          match enrichLoop rest w3 with
          | (Some more, w4) => (Some (enriched :: more), w4)
          | (None, w4) => (None, w4)
          end
      end
  end.

(** The pagination loop ([while (true)]); [None] when [fuel] pages did not
    reach a short or empty batch. *)
Fixpoint fetchPages (fuel : nat) (offset : Z) (allEvents : list Event)
         (w : World) : option (HttpError + list Event) * World :=
  match fuel with
  | O => (None, w)
  | S fuel' =>
      match get_events 100 offset w with
      | (inl err, w1) => (Some (inl err), w1)
      | (inr data, w1) =>
          let batch := JS.arrOr (page_events data) [] in
          if len batch =? 0 then (Some (inr allEvents), w1)
          else if len batch <? 100 then (Some (inr (allEvents ++ batch)), w1)
          else fetchPages fuel' (offset + 100) (allEvents ++ batch)
                          (setTimeout 500 w1)
      end
  end.

(** The comparator [new Date(a.start) - new Date(b.start)]. *)
Definition byStartAscending (a b : Event) : option Z :=
  JS.sub (new_Date (startDate a)) (new_Date (startDate b)).

(** [allEvents.filter(eventDate > now).sort(ascending)]. *)
Definition upcomingOf (now : Z) (allEvents : list Event) : list Event :=
  JS.sort byStartAscending
    (filter (fun ev => JS.gt (new_Date (startDate ev)) (Some now)) allEvents).

Definition getUpcomingEventsWithTickets (fuel : nat) (limit : Z) (w : World)
  : option (Outcome EventsData) * World :=
  match fetchPages fuel 0 [] w with
  | (None, w1) => (None, w1)
  | (Some (inl err), w1) => (Some (Failure (message err)), w1)
  | (Some (inr allEvents), w1) =>
      let '(now, w2) := Date_now w1 in
      let upcomingEvents := JS.slice0 limit (upcomingOf now allEvents) in
      match enrichLoop upcomingEvents w2 with
      | (None, w3) =>
          (Some (Failure "Cannot read properties of undefined (reading 'total')"), w3)
      | (Some eventsWithTickets, w3) =>
          let '(stamp, w4) := Date_now w3 in
          (Some (Success {| events := eventsWithTickets;
                            events_total := len eventsWithTickets;
                            generatedAt := stamp |}), w4)
      end
  end.

End FinalTicketManager.

(** ** The report ([generateTicketReport]) *)

Record SalesBreakdown := {
  high : Z;
  medium : Z;
  low : Z;
  urgent : Z
}.

(** An entry of [summary.topSellingEvents]. *)
Module Seller.
Record t := {
  title : string;
  tickets : Z;
  type : string
}.
End Seller.

(** An entry of [report.events]. *)
Module EventRow.
Record t := {
  title : string;
  date : option string;
  daysFromNow : option Z;
  ticketsSold : Z;
  paidTickets : Z;
  freeTickets : Z;
  salesStatus : string;
  eventType : string;
  venue : string;
  isPaid : bool;
  isFree : bool;
  isRSVPOnly : bool;
  eventId : string;
  slug : option string
}.
End EventRow.

Record Summary := {
  totalUpcomingEvents : Z;
  totalTicketsSold : Z;
  totalPaidTickets : Z;
  totalFreeTickets : Z;
  averageTicketsPerEvent : Q;
  ticketedEventsCount : Z;
  freeEventsCount : Z;
  eventTypes : list (string * Z);
  salesBreakdown : SalesBreakdown;
  venueBreakdown : list (string * Z);
  topSellingEvents : list Seller.t;
  urgentEvents : list EnrichedEvent;
  thisWeekEvents : list EnrichedEvent
}.

Record Report := {
  venue_name : string;
  venue_location : string;
  summary : Summary;
  report_events : list EventRow.t;
  report_generatedAt : Z
}.

(** [counts[key] = (counts[key] || 0) + 1] on a counting object, kept in
    insertion order. *)
Fixpoint bump (key : string) (counts : list (string * Z)) : list (string * Z) :=
  match counts with
  | [] => [(key, 1)]
  | (k, n) :: counts' =>
      if String.eqb k key then (k, n + 1) :: counts'
      else (k, n) :: bump key counts'
  end.

(** The filter of [ticketedEvents]. *)
Definition isTicketed (e : EnrichedEvent) : bool :=
  isPaid e || ((0 <? ticketsSold e) && negb (isRSVPOnly e)).

(** The sort of [topSellingEvents]: [b.ticketsSold - a.ticketsSold]. *)
Definition byTicketsDescending (a b : EnrichedEvent) : option Z :=
  Some (ticketsSold b - ticketsSold a).

Definition topSeller (e : EnrichedEvent) : Seller.t :=
  {| Seller.title := title (event e);
     Seller.tickets := ticketsSold e;
     Seller.type := if isPaid e then "paid" else if isFree e then "free" else "unknown" |}.

Definition reportRow (e : EnrichedEvent) : EventRow.t :=
  {| EventRow.title := title (event e);
     EventRow.date := formatted (event e);
     EventRow.daysFromNow := daysFromNow e;
     EventRow.ticketsSold := ticketsSold e;
     EventRow.paidTickets := paidTickets e;
     EventRow.freeTickets := freeTickets e;
     EventRow.salesStatus := salesStatus e;
     EventRow.eventType := eventType e;
     EventRow.venue := venue e;
     EventRow.isPaid := isPaid e;
     EventRow.isFree := isFree e;
     EventRow.isRSVPOnly := isRSVPOnly e;
     EventRow.eventId := id (event e);
     EventRow.slug := slug (event e) |}.

Definition hasStatus (s : string) (e : EnrichedEvent) : bool :=
  String.eqb (salesStatus e) s.

(** The body of [generateTicketReport] once [data.success] holds. *)
Definition buildReport (data : EventsData) : Report :=
  let sold := fold_left (fun sum e => sum + ticketsSold e) (events data) 0 in
  let paid := fold_left (fun sum e => sum + paidTickets e) (events data) 0 in
  let freeOnes := fold_left (fun sum e => sum + freeTickets e) (events data) 0 in
  let ticketedEvents := filter isTicketed (events data) in
  let average : Q :=
    if 0 <? len ticketedEvents
    then (inject_Z (JS.Math_round
                      (inject_Z sold / inject_Z (len ticketedEvents) * inject_Z 10))
          / inject_Z 10)%Q
    else 0%Q in
  let types := fold_left (fun counts e => bump (eventType e) counts) (events data) [] in
  let breakdown :=
    {| high := len (filter (hasStatus "high") (events data));
       medium := len (filter (hasStatus "medium") (events data));
       low := len (filter (hasStatus "low") (events data));
       urgent := len (filter (hasStatus "urgent") (events data)) |} in
  let venues := fold_left (fun counts e => bump (venue e) counts) (events data) [] in
  {| venue_name := "The Listening Booth";
     venue_location := "Lewes, Delaware";
     summary :=
       {| totalUpcomingEvents := len (events data);
          totalTicketsSold := sold;
          totalPaidTickets := paid;
          totalFreeTickets := freeOnes;
          averageTicketsPerEvent := average;
          ticketedEventsCount := len ticketedEvents;
          freeEventsCount := len (filter (fun e => isFree e || isRSVPOnly e) (events data));
          eventTypes := types;
          salesBreakdown := breakdown;
          venueBreakdown := venues;
          topSellingEvents :=
            map topSeller
                (JS.slice0 5
                   (JS.sort byTicketsDescending
                      (filter (fun e => 0 <? ticketsSold e) (events data))));
          urgentEvents := filter (hasStatus "urgent") (events data);
          thisWeekEvents :=
            filter (fun e => JS.le (daysFromNow e) (Some 7)) (events data) |};
     report_events := map reportRow (events data);
     report_generatedAt := generatedAt data |}.

(** [generateTicketReport(limit)]: a failed fetch is rethrown and caught,
    and comes back as [{ success: false, error }]. *)
Definition generateTicketReport {U : Upstream} (fuel : nat) (limit : Z) (w : World)
  : option (Outcome Report) * World :=
  match getUpcomingEventsWithTickets fuel limit w with
  | (None, w1) => (None, w1)
  | (Some (Failure msg), w1) => (Some (Failure msg), w1)
  | (Some (Success data), w1) => (Some (Success (buildReport data)), w1)
  end.

(** ** Upcoming and past events ([venue-manager.js]) *)

Section VenueManager.
Context {U : Upstream}.

(** The [while (allEvents.length < totalAvailable)] loop of [getAllEvents];
    an absent [total] compares false and ends the loop.  [None] when
    [fuel] pages did not end it. *)
Fixpoint morePages (fuel : nat) (totalAvailable : option Z) (offset : Z)
         (allEvents : list Event) (w : World)
  : option (HttpError + list Event) * World :=
  if JS.gt totalAvailable (Some (len allEvents)) then
    match fuel with
    | O => (None, w)
    | S fuel' =>
        match get_events 100 (offset + 100) w with
        | (inl err, w1) => (Some (inl err), w1)
        | (inr data, w1) =>
            let newEvents := JS.arrOr (page_events data) [] in
            if len newEvents =? 0 then (Some (inr (allEvents ++ newEvents)), w1)
            else morePages fuel' totalAvailable (offset + 100)
                           (allEvents ++ newEvents) w1
        end
    end
  else (Some (inr allEvents), w).

Definition getAllEvents (fuel : nat) (w : World)
  : option (Outcome (list Event)) * World :=
  match get_events 100 0 w with
  | (inl err, w1) => (Some (Failure (message err)), w1)
  | (inr data, w1) =>
      match morePages fuel (page_total data) 0 (JS.arrOr (page_events data) []) w1 with
      | (None, w2) => (None, w2)
      | (Some (inl err), w2) => (Some (Failure (message err)), w2)
      | (Some (inr allEvents), w2) => (Some (Success allEvents), w2)
      end
  end.

(** The comparator [new Date(b.start) - new Date(a.start)]. *)
Definition byStartDescending (a b : Event) : option Z :=
  JS.sub (new_Date (startDate b)) (new_Date (startDate a)).

(** [allEvents.filter(eventDate <= now).sort(descending)]. *)
Definition pastOf (now : Z) (allEvents : list Event) : list Event :=
  JS.sort byStartDescending
    (filter (fun ev => JS.le (new_Date (startDate ev)) (Some now)) allEvents).

Definition getUpcomingEvents (fuel : nat) (w : World)
  : option (Outcome (list Event)) * World :=
  match getAllEvents fuel w with
  | (None, w1) => (None, w1)
  | (Some (Failure msg), w1) => (Some (Failure msg), w1)
  | (Some (Success allEvents), w1) =>
      let '(now, w2) := Date_now w1 in
      (Some (Success (upcomingOf now allEvents)), w2)
  end.

Definition getPastEvents (fuel : nat) (w : World)
  : option (Outcome (list Event)) * World :=
  match getAllEvents fuel w with
  | (None, w1) => (None, w1)
  | (Some (Failure msg), w1) => (Some (Failure msg), w1)
  | (Some (Success allEvents), w1) =>
      let '(now, w2) := Date_now w1 in
      (Some (Success (pastOf now allEvents)), w2)
  end.

(** [getDashboard]: one fetch and one clock reading for both halves. *)
Record Dashboard := {
  totalEvents : Z;
  upcomingCount : Z;
  pastCount : Z;
  nextEvent : option Event;
  recentEvent : option Event
}.

Definition getDashboard (fuel : nat) (w : World)
  : option (Outcome Dashboard) * World :=
  match getAllEvents fuel w with
  | (None, w1) => (None, w1)
  | (Some (Failure msg), w1) => (Some (Failure msg), w1)
  | (Some (Success allEvents), w1) =>
      let '(now, w2) := Date_now w1 in
      let upcomingEvents := upcomingOf now allEvents in
      let pastEvents := pastOf now allEvents in
      (Some (Success {| totalEvents := len allEvents;
                        upcomingCount := len upcomingEvents;
                        pastCount := len pastEvents;
                        nextEvent := hd_error upcomingEvents;
                        recentEvent := hd_error pastEvents |}), w2)
  end.

End VenueManager.

(** ** Attendance enrichment ([simplified-venue-manager.js]) *)

Module Simplified.

(** An element of [eventsWithData]. *)
Record Attended := {
  event : Event;
  rsvpCount : Z;
  ticketsSold : Z;
  totalAttendance : Z;
  daysFromNow : option Z;
  popularityStatus : string;
  statusText : string;
  isRecurring : bool;
  eventType : string;
  venue : string
}.

Section Enrich.
Context {U : Upstream}.

(** The callback of [upcomingEvents.map], from the answers to its two
    requests and the clock reading.  A rejected request leaves the
    count at its initial 0 (the [catch] blocks are empty). *)
Definition attend (ev : Event) (rsvpAnswer : HttpError + RsvpsBody)
           (bookingAnswer : HttpError + BookingsBody) (now : Z) : Attended :=
  let rsvps :=
    match rsvpAnswer with
    | inr data => JS.numOr (rsvps_total data) 0
    | inl _ => 0
    end in
  let sold :=
    match bookingAnswer with
    | inr data => JS.numOr (option_map len (bookings data)) 0
    | inl _ => 0
    end in
  let days := daysUntil (new_Date (startDate ev)) now in
  let attendance := rsvps + sold in
  let popularity :=
    if (0 <? rsvps) || (0 <? sold) then
      if 20 <? attendance then ("high", "High Interest")
      else if 10 <? attendance then ("medium", "Good Interest")
      else ("low", "Some Interest")
    else ("info", "Event Scheduled") in
  let titleLower := JS.toLowerCase (title ev) in
  let recurring :=
    JS.includes titleLower "open mic" ||
    JS.includes titleLower "jam night" ||
    JS.includes titleLower "voice lessons" in
  let popularity' :=
    if recurring then ("recurring", "Regular Event") else popularity in
  let text :=
    if JS.le days (Some 7)
    then (snd popularity' ++ " - Coming Soon!")%string
    else snd popularity' in
  {| event := ev;
     rsvpCount := rsvps;
     ticketsSold := sold;
     totalAttendance := rsvps + sold;
     daysFromNow := days;
     popularityStatus := fst popularity';
     statusText := text;
     isRecurring := recurring;
     eventType := categorizeEvent (title ev);
     venue := JS.strOr (locationName ev) "The Listening Booth" |}.

(** One callback against the upstream service. *)
Definition attendEvent (ev : Event) (w : World) : Attended * World :=
  let '(rsvpAnswer, w1) := get_rsvps (id ev) w in
  let '(bookingAnswer, w2) := get_bookings (id ev) w1 in
  let '(now, w3) := Date_now w2 in
  (attend ev rsvpAnswer bookingAnswer now, w3).

(** [Promise.all(upcomingEvents.map(callback))], the callbacks taken in
    event order; the result array is in event order whatever the order
    of the answers. *)
Fixpoint attendAll (upcomingEvents : list Event) (w : World)
  : list Attended * World :=
  match upcomingEvents with
  | [] => ([], w)
  | ev :: rest =>
      let '(attended, w1) := attendEvent ev w in
      let '(more, w2) := attendAll rest w1 in
      (attended :: more, w2)
  end.
End Enrich.

End Simplified.

(** ** A scripted upstream service

    A concrete [Upstream] for worked scenarios: the world is the clock in
    milliseconds, a delay advances it, dates are looked up in a calendar and
    every endpoint answers from a table. *)

Module Scripted.

Record Script := {
  calendar : list (string * Z);
  listing : Z -> HttpError + EventsBody;
  ticketDesk : string -> Z -> HttpError + TicketsBody;
  rsvpDesk : string -> Z -> HttpError + RsvpsBody;
  bookingDesk : string -> Z -> HttpError + BookingsBody
}.

Fixpoint lookup {A : Type} (key : string) (table : list (string * A)) : option A :=
  match table with
  | [] => None
  | (k, v) :: table' => if String.eqb k key then Some v else lookup key table'
  end.

Definition upstream (s : Script) : Upstream :=
  {| World := Z;
     Date_parse := fun text => lookup text (calendar s);
     Date_now := fun clock => (clock, clock);
     setTimeout := fun ms clock => clock + ms;
     get_events := fun _ offset clock => (listing s offset, clock);
     get_tickets := fun eventId clock => (ticketDesk s eventId clock, clock);
     get_rsvps := fun eventId clock => (rsvpDesk s eventId clock, clock);
     get_bookings := fun eventId clock => (bookingDesk s eventId clock, clock) |}.

Definition notFound : HttpError :=
  {| status := Some 404; message := "Request failed with status code 404" |}.

Definition tooManyRequests : HttpError :=
  {| status := Some 429; message := "Request failed with status code 429" |}.

(** One page holding [evs], then empty pages. *)
Definition onePage (evs : list Event) (offset : Z) : HttpError + EventsBody :=
  if offset =? 0
  then inr {| page_events := Some evs; page_total := Some (len evs) |}
  else inr {| page_events := Some []; page_total := Some (len evs) |}.

Definition sold (paid freeOnes : nat) : HttpError + TicketsBody :=
  inr {| data_tickets := Some (repeat {| free := false |} paid ++
                               repeat {| free := true |} freeOnes);
         data_total := Some (Z.of_nat (paid + freeOnes)) |}.

(** 2025-06-01T00:00:00.000Z, and one day, in milliseconds. *)
Definition june1 : Z := 1748736000000.
Definition day : Z := 86400000.

Definition booth (eventId name : string) (start : option string) : Event :=
  {| id := eventId; title := name; startDate := start;
     formatted := None; locationName := None; slug := None |}.

(** *** Three upcoming events: Open Mic (0 tickets, 3 days out), Jazz Night
    (12 tickets, 10 days out), Fundraiser Gala (30 tickets, 2 days out). *)
Definition openMic : Event := booth "ev-open-mic" "Open Mic" (Some "2025-06-04T00:00:00.000Z").
Definition jazzNight : Event := booth "ev-jazz" "Jazz Night" (Some "2025-06-11T00:00:00.000Z").
Definition gala : Event := booth "ev-gala" "Fundraiser Gala" (Some "2025-06-03T00:00:00.000Z").

Definition juneCalendar : list (string * Z) :=
  [("2025-05-25T00:00:00.000Z", june1 - 7 * day);
   ("2025-06-03T00:00:00.000Z", june1 + 2 * day);
   ("2025-06-04T00:00:00.000Z", june1 + 3 * day);
   ("2025-06-11T00:00:00.000Z", june1 + 10 * day)].

Definition threeEvents : Script :=
  {| calendar := juneCalendar;
     listing := onePage [openMic; jazzNight; gala];
     ticketDesk := fun eventId _ =>
       if String.eqb eventId "ev-open-mic" then sold 0 0
       else if String.eqb eventId "ev-jazz" then sold 12 0
       else if String.eqb eventId "ev-gala" then sold 30 0
       else inl notFound;
     rsvpDesk := fun _ _ => inl notFound;
     bookingDesk := fun _ _ => inl notFound |}.

(** *** One event with five free tickets and no paid ticket. *)
Definition brunch : Event := booth "ev-brunch" "Gospel Brunch" (Some "2025-06-04T00:00:00.000Z").

Definition freeShow : Script :=
  {| calendar := juneCalendar;
     listing := onePage [brunch];
     ticketDesk := fun _ _ => sold 0 5;
     rsvpDesk := fun _ _ => inl notFound;
     bookingDesk := fun _ _ => inl notFound |}.


(** *** One event whose ticket answer carries a paid ticket record and no
    [total] field. *)
Definition noTotal : Script :=
  {| calendar := juneCalendar;
     listing := onePage [jazzNight];
     ticketDesk := fun _ _ =>
       inr {| data_tickets := Some [ {| free := false |} ]; data_total := None |};
     rsvpDesk := fun _ _ => inl notFound;
     bookingDesk := fun _ _ => inl notFound |}.

(** *** A ticket endpoint that is rate limited until [june1] + 6 s; and one
    that never recovers. *)
Definition throttled : Script :=
  {| calendar := juneCalendar;
     listing := onePage [jazzNight];
     ticketDesk := fun _ clock =>
       if clock <? june1 + 6000 then inl tooManyRequests else sold 12 0;
     rsvpDesk := fun _ _ => inl notFound;
     bookingDesk := fun _ _ => inl notFound |}.

Definition blocked : Script :=
  {| calendar := juneCalendar;
     listing := onePage [openMic; jazzNight];
     ticketDesk := fun eventId _ =>
       if String.eqb eventId "ev-jazz" then sold 12 0 else inl tooManyRequests;
     rsvpDesk := fun _ _ => inl notFound;
     bookingDesk := fun _ _ => inl notFound |}.

(** *** A listing with a past event and an event without a start date. *)
Definition reunion : Event := booth "ev-reunion" "Spring Reunion" (Some "2025-05-25T00:00:00.000Z").
Definition undated : Event := booth "ev-tbd" "To Be Announced" None.
Definition garbled : Event := booth "ev-soon" "Coming Soon" (Some "soon").

Definition mixedListing : Script :=
  {| calendar := juneCalendar;
     listing := onePage [jazzNight; undated; reunion; garbled; gala];
     ticketDesk := fun _ _ => sold 0 0;
     rsvpDesk := fun _ _ => inl notFound;
     bookingDesk := fun _ _ => inl notFound |}.

End Scripted.

(** ** Specification vocabulary *)

(** [needle] occurs in [s]: the meaning of [s.includes(needle)]. *)
Definition occursIn (needle s : string) : Prop :=
  exists before after, s = (before ++ needle ++ after)%string.

(** An answer that [getEventTickets] retries, and the tagged result it
    makes of an answer it does not retry. *)
Definition rateLimited (answer : HttpError + TicketsBody) : bool :=
  match answer with
  | inl err => is429 err
  | inr _ => false
  end.

Definition resultOf (answer : HttpError + TicketsBody) : TicketsResult :=
  match answer with
  | inl err => ticketsFailed err
  | inr data => ticketsOk data
  end.


(** [e] is the enrichment of [ev] from an answer of the ticket endpoint for
    that event and a reading of the clock. *)
Definition enrichedFrom {U : Upstream} (ev : Event) (e : EnrichedEvent) : Prop :=
  exists w0 now,
    e = enrichEvent ev (resultOf (fst (get_tickets (id ev) w0))) now.

(** [x] rounded to one decimal place: [Math.round(x * 10) / 10]. *)
Definition oneDecimal (x : Q) : Q :=
  (inject_Z (JS.Math_round (x * inject_Z 10)) / inject_Z 10)%Q.

(** The closed set of sales statuses. *)
Definition fourStatuses : list string := ["high"; "medium"; "low"; "urgent"].

(** The sum of a list of counts. *)
Definition sumOf (l : list Z) : Z := fold_right Z.add 0 l.




(** The time value of the start of an event, for events that have one. *)
Definition startsAt {U : Upstream} (ev : Event) (t : Z) : Prop :=
  new_Date (startDate ev) = Some t.

(** An event has a start date that parses. *)
Definition dated {U : Upstream} (ev : Event) : Prop :=
  new_Date (startDate ev) <> None.

(** The time value of a dated event (0 stands in for an undated one). *)
Definition startKey {U : Upstream} (ev : Event) : Z :=
  match new_Date (startDate ev) with
  | Some t => t
  | None => 0
  end.

Definition startsNoLater {U : Upstream} (a b : Event) : Prop :=
  exists ta tb, startsAt a ta /\ startsAt b tb /\ ta <= tb.

Definition startsNoEarlier {U : Upstream} (a b : Event) : Prop :=
  exists ta tb, startsAt a ta /\ startsAt b tb /\ tb <= ta.

(** ** The report of [simplified-venue-manager.js] *)

Module SimplifiedManager.

(** The successful result of [getUpcomingEvents(limit)]. *)
Record Data := {
  events : list Simplified.Attended;
  total : Z;
  generatedAt : Z
}.

(** The [summary] object of the report of [generateReport]. *)
Record Summary := {
  totalUpcomingEvents : Z;
  totalAttendance : Z;
  averageAttendancePerEvent : Q;
  eventTypes : list (string * Z);
  venues : list (string * Z);
  eventsThisWeek : Z;
  eventsThisMonth : Z
}.

Section Pipeline.
Context {U : Upstream}.

(** The pagination loop of [getUpcomingEvents]: as in
    [final-ticket-manager.js], without the pause between pages. *)
Fixpoint fetchPages (fuel : nat) (offset : Z) (allEvents : list Event)
         (w : World) : option (HttpError + list Event) * World :=
  match fuel with
  | O => (None, w)
  | S fuel' =>
      match get_events 100 offset w with
      | (inl err, w1) => (Some (inl err), w1)
      | (inr data, w1) =>
          let batch := JS.arrOr (page_events data) [] in
          if len batch =? 0 then (Some (inr allEvents), w1)
          else if len batch <? 100 then (Some (inr (allEvents ++ batch)), w1)
          else fetchPages fuel' (offset + 100) (allEvents ++ batch) w1
      end
  end.

(** [getUpcomingEvents(limit)]. *)
Definition getUpcomingEvents (fuel : nat) (limit : Z) (w : World)
  : option (Outcome Data) * World :=
  match fetchPages fuel 0 [] w with
  | (None, w1) => (None, w1)
  | (Some (inl err), w1) => (Some (Failure (message err)), w1)
  | (Some (inr allEvents), w1) =>
      let '(now, w2) := Date_now w1 in
      let upcomingEvents := JS.slice0 limit (upcomingOf now allEvents) in
      let '(eventsWithData, w3) := Simplified.attendAll upcomingEvents w2 in
      let '(stamp, w4) := Date_now w3 in
      (Some (Success {| events := eventsWithData;
                        total := len eventsWithData;
                        generatedAt := stamp |}), w4)
  end.

End Pipeline.

(** The summary statistics of [generateReport], from [data.events]. *)
Definition reportSummary (data : Data) : Summary :=
  let attendance :=
    fold_left (fun sum e => sum + Simplified.totalAttendance e) (events data) 0 in
  let types :=
    fold_left (fun counts e => bump (Simplified.eventType e) counts) (events data) [] in
  let places :=
    fold_left (fun counts e => bump (Simplified.venue e) counts) (events data) [] in
  {| totalUpcomingEvents := len (events data);
     totalAttendance := attendance;
     averageAttendancePerEvent :=
       if 0 <? len (events data)
       then (inject_Z (JS.Math_round
                         (inject_Z attendance / inject_Z (len (events data)) * inject_Z 10))
             / inject_Z 10)%Q
       else 0%Q;
     eventTypes := types;
     venues := places;
     eventsThisWeek :=
       len (filter (fun e => JS.le (Simplified.daysFromNow e) (Some 7)) (events data));
     eventsThisMonth :=
       len (filter (fun e => JS.le (Simplified.daysFromNow e) (Some 30)) (events data)) |}.

End SimplifiedManager.

(** ** The dashboard server ([server.js])

    The module state [latestReport], [lastUpdated] and the route handlers
    that read and write it.  A handler runs to completion on the state it
    is given; [lastUpdated] is kept as the clock reading it is formatted
    from. *)

Module Server.

Record Cache := {
  latestReport : option Report;
  lastUpdated : option Z
}.

(** [let latestReport = null; let lastUpdated = null;] *)
Definition emptyCache : Cache := {| latestReport := None; lastUpdated := None |}.

(** The body of [GET /api/health]. *)
Record Health := {
  health_status : string;
  lastUpdate : option Z;
  hasData : bool;
  uptime : Q;
  totalEvents : Z;
  totalTickets : Z;
  ticketedEvents : Z
}.

Inductive Body :=
| ReportBody (report : Report)
| CachedBody (report : Report) (updated : option Z)
| ErrorBody (error_text : string)
| HealthBody (health : Health).

Record Response := {
  code : Z;
  body : Body
}.

(** [GET /api/events]; [limitParam] is [parseInt(req.query.limit)], [None]
    for [NaN]. *)
Definition apiEvents {U : Upstream} (fuel : nat) (limitParam : option Z)
           (cache : Cache) (w : World) : option (Response * Cache) * World :=
  let limit := JS.numOr limitParam 20 in
  match generateTicketReport fuel limit w with
  | (None, w1) => (None, w1)
  | (Some (Success report), w1) =>
      let '(stamp, w2) := Date_now w1 in
      (Some ({| code := 200; body := ReportBody report |},
             {| latestReport := Some report; lastUpdated := Some stamp |}), w2)
  | (Some (Failure msg), w1) =>
      (Some ({| code := 500; body := ErrorBody msg |}, cache), w1)
  end.

(** [GET /api/events/cached]. *)
Definition apiCached (cache : Cache) : Response :=
  match latestReport cache with
  | Some report => {| code := 200; body := CachedBody report (lastUpdated cache) |}
  | None => {| code := 404; body := ErrorBody "No cached data available" |}
  end.






End Server.

(** ** Further specification vocabulary *)




(** An event without a start date that parses. *)
Definition undated {U : Upstream} (ev : Event) : bool :=
  match new_Date (startDate ev) with
  | Some _ => false
  | None => true
  end.

(** [s] ends with [suffix]. *)
Definition endsWith (s suffix : string) : Prop :=
  exists before, s = (before ++ suffix)%string.

(** A scripted upstream service whose event list cannot be fetched. *)
Definition offline : Scripted.Script :=
  {| Scripted.calendar := Scripted.juneCalendar;
     Scripted.listing := fun _ =>
       inl {| status := Some 503; message := "Request failed with status code 503" |};
     Scripted.ticketDesk := fun _ _ => Scripted.sold 0 0;
     Scripted.rsvpDesk := fun _ _ => inl Scripted.notFound;
     Scripted.bookingDesk := fun _ _ => inl Scripted.notFound |}.

(** * Properties *)

(** ** Substring search *)

Lemma startsWith_spec (s needle : string) :
  JS.startsWith s needle = true <-> exists after, s = (needle ++ after)%string.
Proof.
  revert s; induction needle as [|a needle IH]; intros s; simpl.
  - split; [intros _; now exists s | intros _; now destruct s].
  - destruct s as [|b s]; simpl.
    + split; [discriminate | intros [after H]; discriminate].
    + rewrite andb_true_iff, Ascii.eqb_eq, IH. split.
      * intros [-> [after ->]]. now exists after.
      * intros [after H]. injection H as -> ->. split; [reflexivity | now exists after].
Qed.

Lemma includes_spec (s needle : string) :
  JS.includes s needle = true <-> occursIn needle s.
Proof.
  unfold occursIn. induction s as [|c s IH]; cbn [JS.includes].
  - rewrite orb_false_r, startsWith_spec. split.
    + intros [after H]. now exists EmptyString, after.
    + intros [before [after H]]. destruct before; simpl in H.
      * now exists after.
      * discriminate.
  - rewrite orb_true_iff, startsWith_spec, IH. split.
    + intros [[after H] | [before [after H]]].
      * now exists EmptyString, after.
      * exists (String c before), after. simpl. now rewrite H.
    + intros [before [after H]]. destruct before as [|c' before]; simpl in H.
      * left. now exists after.
      * right. injection H as _ ->. now exists before, after.
Qed.

Lemma includes_false (s needle : string) :
  JS.includes s needle = false <-> ~ occursIn needle s.
Proof.
  rewrite <- includes_spec. destruct (JS.includes s needle); split; intros H;
    try reflexivity; try discriminate; try (intros H'; discriminate).
  exfalso. now apply H.
Qed.

(** ** C3, C4: the classifier *)

(** C3. For every number of tickets sold and every number of days until the
    event, the sales status is ['urgent'] exactly when the event is at most 7
    days away and no ticket is sold; otherwise it is ['high'] from 25 tickets,
    ['medium'] from 10 to 24 and ['low'] below 10.  In particular (0, 3) is
    urgent, (0, 30) is low and (30, 30) is high. *)
Theorem salesStatus_thresholds (sold days : Z) :
  0 <= sold ->
  (salesStatusOf sold (Some days) = "urgent" <-> days <= 7 /\ sold = 0) /\
  (~ (days <= 7 /\ sold = 0) ->
   (25 <= sold -> salesStatusOf sold (Some days) = "high") /\
   (10 <= sold < 25 -> salesStatusOf sold (Some days) = "medium") /\
   (sold < 10 -> salesStatusOf sold (Some days) = "low")) /\
  salesStatusOf 0 (Some 3) = "urgent" /\
  salesStatusOf 0 (Some 30) = "low" /\
  salesStatusOf 30 (Some 30) = "high".
Proof.
  intros _. unfold salesStatusOf, JS.le.
  split; [|split; [|repeat split; reflexivity]].
  - destruct (days <=? 7) eqn:Hd, (sold =? 0) eqn:Hs; simpl.
    + split; [intros _; lia | reflexivity].
    + split; [|lia].
      destruct (25 <=? sold), (10 <=? sold); discriminate.
    + split; [|lia].
      destruct (25 <=? sold), (10 <=? sold); discriminate.
    + split; [|lia].
      destruct (25 <=? sold), (10 <=? sold); discriminate.
  - intros Hnot.
    assert ((days <=? 7) && (sold =? 0) = false) as ->.
    { apply andb_false_iff.
      destruct (days <=? 7) eqn:Hd; [right | now left].
      apply Z.eqb_neq. lia. }
    repeat split; intros H.
    + assert ((25 <=? sold) = true) as -> by lia. reflexivity.
    + assert ((25 <=? sold) = false) as -> by lia.
      assert ((10 <=? sold) = true) as -> by lia. reflexivity.
    + assert ((25 <=? sold) = false) as -> by lia.
      assert ((10 <=? sold) = false) as -> by lia. reflexivity.
Qed.

Lemma salesStatus_thresholds_witness :
  0 <= 12 /\ salesStatusOf 12 (Some 10) = "medium".
Proof.
  split; [lia|].
  refine (proj1 (proj2 (proj1 (proj2 (salesStatus_thresholds 12 10 _)) _)) _); lia.
Defined.

(** C4. The event type is decided on the lower-cased title by the first
    keyword that occurs in it, in the order "open mic" (Open Mic), "jam"
    (Jam Session), "lessons" or "songwriting" (Workshop), "fundraiser"
    (Fundraiser); a title with none of them is a Concert.  In particular
    "Open Mic Night" is an Open Mic, "Spring Songwriting Workshop" a Workshop
    and "Random Band Concert" a Concert. *)
Theorem categorizeEvent_first_match (title : string) :
  let t := JS.toLowerCase title in
  (occursIn "open mic" t -> categorizeEvent title = "Open Mic") /\
  (~ occursIn "open mic" t -> occursIn "jam" t ->
   categorizeEvent title = "Jam Session") /\
  (~ occursIn "open mic" t -> ~ occursIn "jam" t ->
   occursIn "lessons" t \/ occursIn "songwriting" t ->
   categorizeEvent title = "Workshop") /\
  (~ occursIn "open mic" t -> ~ occursIn "jam" t ->
   ~ occursIn "lessons" t -> ~ occursIn "songwriting" t ->
   occursIn "fundraiser" t -> categorizeEvent title = "Fundraiser") /\
  (~ occursIn "open mic" t -> ~ occursIn "jam" t ->
   ~ occursIn "lessons" t -> ~ occursIn "songwriting" t ->
   ~ occursIn "fundraiser" t -> categorizeEvent title = "Concert") /\
  categorizeEvent "Open Mic Night" = "Open Mic" /\
  categorizeEvent "Spring Songwriting Workshop" = "Workshop" /\
  categorizeEvent "Random Band Concert" = "Concert".
Proof.
  intros t. unfold categorizeEvent. fold t.
  repeat match goal with |- _ /\ _ => split end;
    try reflexivity; intros;
    repeat match goal with
           | H : ~ occursIn _ _ |- _ => apply includes_false in H; rewrite H
           | H : occursIn _ _ |- _ => apply includes_spec in H; rewrite H
           end; simpl; try reflexivity.
  destruct H1 as [H1 | H1]; apply includes_spec in H1; rewrite H1;
    [reflexivity | now rewrite orb_true_r].
Qed.

(** The first keyword wins when several occur, and the case of the title
    does not matter. *)
Example categorizeEvent_examples :
  JS.toLowerCase "Open Mic Night" = "open mic night" /\
  categorizeEvent "Open Mic Jam for the Fundraiser" = "Open Mic" /\
  categorizeEvent "JAM SESSION & Songwriting" = "Jam Session" /\
  categorizeEvent "Voice Lessons Fundraiser" = "Workshop" /\
  categorizeEvent "Annual FUNDRAISER Gala" = "Fundraiser" /\
  categorizeEvent "Pajama Party" = "Jam Session".
Proof. repeat split; reflexivity. Qed.

(** ** C7: retrying the ticket request *)



(** With the default [retries = 3], [getEventTickets] is determined by at
    most three answers of the ticket endpoint. *)
Lemma getEventTickets_unfold {U : Upstream} (eventId : string) (w : World) :
  getEventTickets eventId 3 w =
  let '(a1, w1) := get_tickets eventId w in
  if rateLimited a1 then
    let '(a2, w2) := get_tickets eventId (setTimeout (1 * 2000) w1) in
    if rateLimited a2 then
      let '(a3, w3) := get_tickets eventId (setTimeout (2 * 2000) w2) in
      (Some (resultOf a3), w3)
    else (Some (resultOf a2), w2)
  else (Some (resultOf a1), w1).
Proof.
  unfold getEventTickets. change (Z.to_nat 3) with 3%nat.
  cbn [getEventTickets_from].
  destruct (get_tickets eventId w) as [[e1 | d1] w1]; cbn [rateLimited resultOf];
    [|reflexivity].
  destruct (is429 e1); cbn [andb]; [|reflexivity].
  change (1 <? 3) with true. change (1 + 1) with 2. cbv iota.
  destruct (get_tickets eventId (setTimeout (1 * 2000) w1)) as [[e2 | d2] w2];
    cbn [rateLimited resultOf]; [|reflexivity].
  destruct (is429 e2); cbn [andb]; [|reflexivity].
  change (2 <? 3) with true. change (2 + 1) with 3. cbv iota.
  destruct (get_tickets eventId (setTimeout (2 * 2000) w2)) as [[e3 | d3] w3];
    cbn [rateLimited resultOf]; [|reflexivity].
  change (3 <? 3) with false. rewrite andb_false_r. reflexivity.
Qed.



(** A ticket endpoint that is rate limited for six seconds answers on the
    third attempt, after delays of 2 s and 4 s; one that stays rate limited
    gives a tagged failure after the same delays. *)
Example getEventTickets_throttled :
  @getEventTickets (Scripted.upstream Scripted.throttled) "ev-jazz" 3 Scripted.june1
  = (Some (resultOf (Scripted.sold 12 0)), Scripted.june1 + 2000 + 4000) /\
  @getEventTickets (Scripted.upstream Scripted.blocked) "ev-open-mic" 3 Scripted.june1
  = (Some {| success := false;
             error := Some "Request failed with status code 429";
             tickets := []; total := 0 |},
     Scripted.june1 + 2000 + 4000).
Proof. split; vm_compute; reflexivity. Qed.

(** ** The enrichment loop *)

Lemma getEventTickets_answer {U : Upstream} (eventId : string) (w : World) :
  exists w0,
    fst (getEventTickets eventId 3 w) = Some (resultOf (fst (get_tickets eventId w0))).
Proof.
  rewrite getEventTickets_unfold.
  destruct (get_tickets eventId w) as [a1 w1] eqn:E1.
  destruct (rateLimited a1).
  - destruct (get_tickets eventId (setTimeout (1 * 2000) w1)) as [a2 w2] eqn:E2.
    destruct (rateLimited a2).
    + destruct (get_tickets eventId (setTimeout (2 * 2000) w2)) as [a3 w3] eqn:E3.
      exists (setTimeout (2 * 2000) w2). now rewrite E3.
    + exists (setTimeout (1 * 2000) w1). now rewrite E2.
  - exists w. now rewrite E1.
Qed.

(** The loop never throws, and returns one entry per event, in order. *)
Lemma enrichLoop_entries {U : Upstream} (upcomingEvents : list Event) :
  forall w, exists enriched,
    fst (enrichLoop upcomingEvents w) = Some enriched /\
    Forall2 enrichedFrom upcomingEvents enriched.
Proof.
  induction upcomingEvents as [|ev rest IH]; intros w.
  - exists []. split; [reflexivity | constructor].
  - cbn [enrichLoop].
    destruct (getEventTickets_answer (id ev) w) as [w0 Hres].
    destruct (getEventTickets (id ev) 3 w) as [res w1]. simpl in Hres. subst res.
    destruct (Date_now w1) as [now w2].
    set (w3 := match rest with [] => w2 | _ :: _ => setTimeout 1000 w2 end).
    destruct (IH w3) as [more [Hmore Hall]].
    destruct (enrichLoop rest w3) as [res w4]. simpl in Hmore. subst res.
    eexists. split; [reflexivity|].
    constructor; [|exact Hall]. now exists w0, now.
Qed.

Lemma enrichedFrom_event {U : Upstream} (ev : Event) (e : EnrichedEvent) :
  enrichedFrom ev e -> event e = ev.
Proof. intros [w0 [now ->]]. reflexivity. Qed.


(** Once the event list is fetched, the pipeline succeeds whatever the
    ticket endpoint answers. *)
Lemma getUpcomingEventsWithTickets_succeeds {U : Upstream}
      (fuel : nat) (limit : Z) (w w1 : World) (allEvents : list Event) :
  fetchPages fuel 0 [] w = (Some (inr allEvents), w1) ->
  exists data w',
    getUpcomingEventsWithTickets fuel limit w = (Some (Success data), w') /\
    Forall2 enrichedFrom
            (JS.slice0 limit (upcomingOf (fst (Date_now w1)) allEvents))
            (events data).
Proof.
  intros Hfetch. unfold getUpcomingEventsWithTickets. rewrite Hfetch.
  destruct (Date_now w1) as [now w2]. cbn [fst].
  destruct (enrichLoop_entries (JS.slice0 limit (upcomingOf now allEvents)) w2)
    as [enriched [Hrun Hall]].
  destruct (enrichLoop (JS.slice0 limit (upcomingOf now allEvents)) w2) as [res w3].
  simpl in Hrun. subst res.
  destruct (Date_now w3) as [stamp w4].
  eexists. eexists. split; [reflexivity | exact Hall].
Qed.

(** Every successful run is of that form. *)
Lemma getUpcomingEventsWithTickets_inv {U : Upstream}
      (fuel : nat) (limit : Z) (w w' : World) (data : EventsData) :
  getUpcomingEventsWithTickets fuel limit w = (Some (Success data), w') ->
  exists upcomingEvents, Forall2 enrichedFrom upcomingEvents (events data).
Proof.
  intros Hrun.
  destruct (fetchPages fuel 0 [] w) as [[[err | allEvents]|] w1] eqn:Hfetch;
    try (unfold getUpcomingEventsWithTickets in Hrun; rewrite Hfetch in Hrun;
         discriminate).
  destruct (getUpcomingEventsWithTickets_succeeds fuel limit w w1 allEvents Hfetch)
    as [data' [w'' [Hrun' Hall]]].
  rewrite Hrun in Hrun'. injection Hrun' as -> _.
  eexists. exact Hall.
Qed.

Lemma attendAll_entries {U : Upstream} (upcomingEvents : list Event) :
  forall w,
    Forall2 (fun ev a =>
               exists rsvpAnswer bookingAnswer now,
                 a = Simplified.attend ev rsvpAnswer bookingAnswer now)
            upcomingEvents (fst (Simplified.attendAll upcomingEvents w)).
Proof.
  induction upcomingEvents as [|ev rest IH]; intros w; cbn [Simplified.attendAll].
  - constructor.
  - unfold Simplified.attendEvent.
    destruct (get_rsvps (id ev) w) as [rsvpAnswer w1].
    destruct (get_bookings (id ev) w1) as [bookingAnswer w2].
    destruct (Date_now w2) as [now w3].
    specialize (IH w3). destruct (Simplified.attendAll rest w3) as [more w4].
    cbn [fst] in *. constructor; [|exact IH].
    now exists rsvpAnswer, bookingAnswer, now.
Qed.

(** ** C8: a failed secondary fetch does not abort the enrichment *)


(** The ticket endpoint rejects every request for the Open Mic; the Open Mic
    is kept with zero counts and Jazz Night still gets its 12 tickets. *)
Example enrichment_blocked :
  option_map (map (fun e => (title (event e), ticketsSold e, paidTickets e, freeTickets e)))
             (fst (@enrichLoop (Scripted.upstream Scripted.blocked)
                               [Scripted.openMic; Scripted.jazzNight] Scripted.june1))
  = Some [("Open Mic", 0, 0, 0); ("Jazz Night", 12, 12, 0)].
Proof. vm_compute. reflexivity. Qed.

(** ** The report *)

Lemma generateTicketReport_inv {U : Upstream}
      (fuel : nat) (limit : Z) (w w' : World) (report : Report) :
  generateTicketReport fuel limit w = (Some (Success report), w') ->
  exists data,
    getUpcomingEventsWithTickets fuel limit w = (Some (Success data), w') /\
    report = buildReport data.
Proof.
  unfold generateTicketReport.
  destruct (getUpcomingEventsWithTickets fuel limit w) as [[[data | msg]|] w1];
    intros H; try discriminate.
  injection H as <- <-. now exists data.
Qed.

Lemma fold_left_sum {A : Type} (f : A -> Z) (l : list A) (acc : Z) :
  fold_left (fun sum e => sum + f e) l acc = acc + sumOf (map f l).
Proof.
  revert acc; induction l as [|x l IH]; intros acc; simpl.
  - lia.
  - rewrite IH. unfold sumOf. lia.
Qed.

Lemma len_nonneg {A : Type} (l : list A) : 0 <= len l.
Proof. unfold len. lia. Qed.

Lemma len_cons {A : Type} (x : A) (l : list A) : len (x :: l) = 1 + len l.
Proof. unfold len. simpl List.length. lia. Qed.



(** [Math.round(x * 10) / 10] is a number of tenths at most 1/20 from [x]. *)
Lemma oneDecimal_close (x : Q) :
  (oneDecimal x * inject_Z 10 == inject_Z (JS.Math_round (x * inject_Z 10)))%Q /\
  (x - (1 # 20) < oneDecimal x <= x + (1 # 20))%Q.
Proof.
  unfold oneDecimal, JS.Math_round.
  pose proof (Qfloor_le (x * inject_Z 10 + (1 # 2))) as Hlo.
  pose proof (Qlt_floor (x * inject_Z 10 + (1 # 2))) as Hhi.
  rewrite inject_Z_plus in Hhi.
  set (k := inject_Z (Qfloor (x * inject_Z 10 + (1 # 2)))) in *.
  change (inject_Z 10) with (10 # 1)%Q in *. change (inject_Z 1) with (1 # 1)%Q in *.
  split; [field | split].
  - apply Qlt_shift_div_l; [reflexivity | lra].
  - apply Qle_shift_div_r; [reflexivity | lra].
Qed.

Lemma enriched_all {U : Upstream}
      (fuel : nat) (limit : Z) (w w' : World) (data : EventsData) :
  getUpcomingEventsWithTickets fuel limit w = (Some (Success data), w') ->
  Forall (fun e => enrichedFrom (event e) e) (events data).
Proof.
  intros Hrun. apply getUpcomingEventsWithTickets_inv in Hrun as [ups Hall].
  induction Hall as [|ev e ups es He _ IH]; constructor; [|exact IH].
  now rewrite (enrichedFrom_event ev e He).
Qed.

(** ** C1: the average is taken over the ticketed events *)




(** ** C2: the three-event scenario *)

(** C2 (as the code has it). With Open Mic (0 tickets, 3 days out), Jazz
    Night (12 tickets, 10 days out) and Fundraiser Gala (30 tickets, 2 days
    out) upcoming, the report lists the events by start date, its
    [urgentEvents] is the Open Mic (no ticket sold, at most 7 days out), its
    [topSellingEvents] is Fundraiser Gala (30) then Jazz Night (12), and its
    [averageTicketsPerEvent] is 21.0 over the 2 ticketed events. *)
Theorem three_events_report :
  exists report w',
    @generateTicketReport (Scripted.upstream Scripted.threeEvents) 5 20 Scripted.june1
    = (Some (Success report), w') /\
    map (fun r => (EventRow.title r, EventRow.ticketsSold r, EventRow.daysFromNow r))
        (report_events report)
    = [("Fundraiser Gala", 30, Some 2); ("Open Mic", 0, Some 3);
       ("Jazz Night", 12, Some 10)] /\
    map (fun e => title (event e)) (urgentEvents (summary report)) = ["Open Mic"] /\
    map (fun t => (Seller.title t, Seller.tickets t)) (topSellingEvents (summary report))
    = [("Fundraiser Gala", 30); ("Jazz Night", 12)] /\
    ticketedEventsCount (summary report) = 2 /\
    (averageTicketsPerEvent (summary report) == 21)%Q.
Proof.
  eexists. eexists. split; [vm_compute; reflexivity|].
  repeat split; vm_compute; reflexivity.
Qed.

(** C2 (as the specification words it) fails: in that scenario
    [urgentEvents] is not empty, the Open Mic is in it although it is an
    RSVP-only event. *)
Lemma three_events_urgent_not_empty :
  exists report w',
    @generateTicketReport (Scripted.upstream Scripted.threeEvents) 5 20 Scripted.june1
    = (Some (Success report), w') /\
    map (fun e => (title (event e), isRSVPOnly e)) (urgentEvents (summary report))
    = [("Open Mic", true)] /\
    urgentEvents (summary report) <> [].
Proof.
  eexists. eexists. split; [vm_compute; reflexivity|].
  split; [vm_compute; reflexivity | discriminate].
Qed.

(** ** C9: paid and free tickets against tickets sold *)

Lemma len_partition {A : Type} (p : A -> bool) (l : list A) :
  len (filter (fun x => negb (p x)) l) + len (filter p l) = len l.
Proof.
  induction l as [|x l IH]; cbn [filter]; [reflexivity|].
  destruct (p x); cbn [negb]; rewrite !len_cons; lia.
Qed.

(** C9 (as the code has it). In every enriched event the paid count plus
    the free count is the number of ticket records in the answer the event
    was enriched from, and [ticketsSold] is the total that answer reports;
    so when every answer of the ticket endpoint reports a total that is at
    least the number of ticket records it carries, paid + free is at most
    [ticketsSold] in every enriched event. *)
Theorem paid_plus_free_within_sold {U : Upstream}
        (fuel : nat) (limit : Z) (w w' : World) (data : EventsData) :
  (forall eventId w0 body,
      fst (get_tickets eventId w0) = inr body ->
      len (JS.arrOr (data_tickets body) []) <= JS.numOr (data_total body) 0) ->
  getUpcomingEventsWithTickets fuel limit w = (Some (Success data), w') ->
  Forall (fun e =>
            (exists w0,
                let result := resultOf (fst (get_tickets (id (event e)) w0)) in
                paidTickets e + freeTickets e = len (tickets result) /\
                ticketsSold e = total result) /\
            paidTickets e + freeTickets e <= ticketsSold e)
         (events data).
Proof.
  intros Hconsistent Hrun. apply enriched_all in Hrun.
  eapply Forall_impl; [|exact Hrun].
  intros e [w0 [now He]].
  assert (Hsum : paidTickets e + freeTickets e
                 = len (tickets (resultOf (fst (get_tickets (id (event e)) w0))))).
  { rewrite He at 1 2. cbn [enrichEvent paidTickets freeTickets].
    apply (len_partition free). }
  assert (Hsold : ticketsSold e = total (resultOf (fst (get_tickets (id (event e)) w0)))).
  { rewrite He at 1. reflexivity. }
  split; [now exists w0|].
  rewrite Hsum, Hsold.
  destruct (fst (get_tickets (id (event e)) w0)) as [err | body] eqn:Hanswer.
  - simpl. reflexivity.
  - cbn [resultOf ticketsOk tickets total].
    exact (Hconsistent (id (event e)) w0 body Hanswer).
Qed.

Lemma paid_plus_free_within_sold_witness :
  exists data w',
    @getUpcomingEventsWithTickets (Scripted.upstream Scripted.freeShow) 5 20 Scripted.june1
    = (Some (Success data), w') /\
    Forall (fun e => paidTickets e + freeTickets e <= ticketsSold e) (events data).
Proof.
  eexists. eexists.
  assert (Hrun : @getUpcomingEventsWithTickets (Scripted.upstream Scripted.freeShow)
                   5 20 Scripted.june1 = (Some (Success _), _))
    by (vm_compute; reflexivity).
  split; [exact Hrun|].
  assert (Hconsistent :
            forall eventId w0 body,
              fst (@get_tickets (Scripted.upstream Scripted.freeShow) eventId w0) = inr body ->
              len (JS.arrOr (data_tickets body) []) <= JS.numOr (data_total body) 0).
  { intros eventId w0 body Hbody. simpl in Hbody. injection Hbody as <-.
    vm_compute. discriminate. }
  eapply Forall_impl;
    [|exact (paid_plus_free_within_sold _ _ _ _ _ Hconsistent Hrun)].
  intros e [_ H]. exact H.
Defined.

(** C9 (as the specification words it) fails: a ticket answer with one paid
    ticket record and no [total] field gives an enriched event with one paid
    ticket and [ticketsSold] = 0. *)
Lemma paid_exceeds_sold_without_total :
  exists data w',
    @getUpcomingEventsWithTickets (Scripted.upstream Scripted.noTotal) 5 20 Scripted.june1
    = (Some (Success data), w') /\
    map (fun e => (paidTickets e, freeTickets e, ticketsSold e)) (events data)
    = [(1, 0, 0)] /\
    ~ Forall (fun e => paidTickets e + freeTickets e <= ticketsSold e) (events data).
Proof.
  eexists. eexists. split; [vm_compute; reflexivity|].
  split; [vm_compute; reflexivity|].
  intros H. inversion H as [|e es He _]. vm_compute in He. now apply He.
Qed.

(** ** C10: the sales breakdown partitions the events *)

Lemma salesStatusOf_closed (sold : Z) (days : option Z) :
  In (salesStatusOf sold days) fourStatuses.
Proof.
  unfold salesStatusOf, fourStatuses.
  destruct (JS.le days (Some 7) && (sold =? 0)); [simpl; tauto|].
  destruct (25 <=? sold); [simpl; tauto|].
  destruct (10 <=? sold); simpl; tauto.
Qed.

Lemma status_counts (l : list EnrichedEvent) :
  Forall (fun e => In (salesStatus e) fourStatuses) l ->
  len (filter (hasStatus "high") l) + len (filter (hasStatus "medium") l) +
  len (filter (hasStatus "low") l) + len (filter (hasStatus "urgent") l) = len l.
Proof.
  induction 1 as [|e l He _ IH]; [reflexivity|].
  cbn [filter].
  assert (Htest : forall s, hasStatus s e = String.eqb (salesStatus e) s) by reflexivity.
  rewrite !Htest.
  destruct He as [He | [He | [He | [He | []]]]]; rewrite <- He;
    cbv [String.eqb Ascii.eqb Bool.eqb]; rewrite !len_cons; lia.
Qed.

(** C10. Every enriched event carries exactly one of the four sales
    statuses high, medium, low and urgent, so in every generated report the
    four counts of [salesBreakdown] add up to [summary.totalUpcomingEvents]. *)
Theorem salesBreakdown_partitions {U : Upstream}
        (fuel : nat) (limit : Z) (w w' : World) (report : Report) :
  generateTicketReport fuel limit w = (Some (Success report), w') ->
  NoDup fourStatuses /\
  Forall (fun r => In (EventRow.salesStatus r) fourStatuses) (report_events report) /\
  high (salesBreakdown (summary report)) + medium (salesBreakdown (summary report)) +
  low (salesBreakdown (summary report)) + urgent (salesBreakdown (summary report))
  = totalUpcomingEvents (summary report).
Proof.
  intros Hrun.
  apply generateTicketReport_inv in Hrun as [data [Hrun ->]].
  apply enriched_all in Hrun.
  assert (Hstatus : Forall (fun e => In (salesStatus e) fourStatuses) (events data)).
  { eapply Forall_impl; [|exact Hrun].
    intros e [w0 [now ->]]. apply salesStatusOf_closed. }
  split; [|split].
  - unfold fourStatuses.
    repeat (constructor; [simpl; intuition discriminate|]). constructor.
  - cbn [buildReport report_events]. apply Forall_map. exact Hstatus.
  - cbn [buildReport summary salesBreakdown totalUpcomingEvents high medium low urgent].
    now apply status_counts.
Qed.

Lemma salesBreakdown_partitions_witness :
  exists report w',
    @generateTicketReport (Scripted.upstream Scripted.threeEvents) 5 20 Scripted.june1
    = (Some (Success report), w') /\
    high (salesBreakdown (summary report)) + medium (salesBreakdown (summary report)) +
    low (salesBreakdown (summary report)) + urgent (salesBreakdown (summary report))
    = totalUpcomingEvents (summary report).
Proof.
  eexists. eexists.
  assert (Hrun : @generateTicketReport (Scripted.upstream Scripted.threeEvents)
                   5 20 Scripted.june1 = (Some (Success _), _))
    by (vm_compute; reflexivity).
  split; [exact Hrun|].
  exact (proj2 (proj2 (salesBreakdown_partitions _ _ _ _ _ Hrun))).
Defined.

(** ** Sorting *)

Section SortFacts.
Context {A : Type} (comparefn : A -> A -> option Z).

Lemma insert_perm (x : A) (l : list A) :
  Permutation (x :: l) (JS.insert comparefn x l).
Proof.
  induction l as [|y l IH]; cbn [JS.insert]; [reflexivity|].
  destruct (JS.sortCompare comparefn x y <=? 0); [reflexivity|].
  rewrite perm_swap. now constructor.
Qed.

Lemma sort_perm (l : list A) : Permutation l (JS.sort comparefn l).
Proof.
  induction l as [|x l IH]; [constructor|].
  change (JS.sort comparefn (x :: l))
    with (JS.insert comparefn x (JS.sort comparefn l)).
  rewrite <- insert_perm. now constructor.
Qed.

Lemma sort_In (x : A) (l : list A) : In x (JS.sort comparefn l) <-> In x l.
Proof.
  split; apply Permutation_in; [symmetry|]; apply sort_perm.
Qed.

(** On elements where the comparator is the difference of a key, the
    result is in key order. *)
Context (key : A -> Z) (P : A -> Prop).
Hypothesis comparefn_key :
  forall x y, P x -> P y -> JS.sortCompare comparefn x y = key x - key y.

Let keyLe (a b : A) : Prop := key a <= key b.

Lemma insert_sorted (x : A) (l : list A) :
  P x -> Forall P l ->
  StronglySorted keyLe l -> StronglySorted keyLe (JS.insert comparefn x l).
Proof.
  intros Hx Hl Hs. induction Hs as [|y l Hs IH Hy]; cbn [JS.insert].
  - repeat constructor.
  - inversion Hl as [|? ? Py Pl]; subst.
    rewrite (comparefn_key x y Hx Py).
    destruct (key x - key y <=? 0) eqn:Hcmp.
    + constructor; [now constructor|].
      constructor; [unfold keyLe; lia|].
      eapply Forall_impl; [|exact Hy]. unfold keyLe. intros z Hz. lia.
    + constructor; [now apply IH|].
      apply Forall_forall. intros z Hz.
      apply (Permutation_in _ (Permutation_sym (insert_perm x l))) in Hz.
      destruct Hz as [<- | Hz]; [unfold keyLe; lia|].
      now apply (proj1 (Forall_forall _ _) Hy).
Qed.

Lemma sort_sorted (l : list A) :
  Forall P l -> StronglySorted keyLe (JS.sort comparefn l).
Proof.
  induction 1 as [|x l Hx Hl IH]; [constructor|].
  change (JS.sort comparefn (x :: l))
    with (JS.insert comparefn x (JS.sort comparefn l)).
  apply insert_sorted; [exact Hx | | exact IH].
  apply Forall_forall. intros z Hz. apply (proj1 (sort_In z l)) in Hz.
  now apply (proj1 (Forall_forall _ _) Hl).
Qed.

End SortFacts.

Lemma StronglySorted_on {A : Type} (R R' : A -> A -> Prop) (P : A -> Prop) (l : list A) :
  (forall a b, P a -> P b -> R a b -> R' a b) ->
  Forall P l -> StronglySorted R l -> StronglySorted R' l.
Proof.
  intros Himp Hl Hs. induction Hs as [|x l Hs IH Hx]; [constructor|].
  inversion Hl as [|? ? Px Pl]; subst.
  constructor; [now apply IH|].
  apply Forall_forall. intros z Hz.
  apply Himp; [exact Px | | ].
  - now apply (proj1 (Forall_forall _ _) Pl).
  - now apply (proj1 (Forall_forall _ _) Hx).
Qed.

Lemma filter_split_perm {A : Type} (p q : A -> bool) (l : list A) :
  Forall (fun x => q x = negb (p x)) l ->
  Permutation (filter p l ++ filter q l) l.
Proof.
  induction 1 as [|x l Hx _ IH]; cbn [filter]; [constructor|].
  rewrite Hx. destruct (p x); cbn [negb app].
  - now constructor.
  - rewrite <- Permutation_middle. now constructor.
Qed.

(** ** C5, C6: upcoming and past events *)

Section UpcomingPast.
Context {U : Upstream}.

Lemma dated_startsAt (ev : Event) : dated ev -> startsAt ev (startKey ev).
Proof.
  unfold dated, startsAt, startKey.
  destruct (new_Date (startDate ev)); [reflexivity | congruence].
Qed.

Lemma upcoming_test (now : Z) (ev : Event) :
  JS.gt (new_Date (startDate ev)) (Some now) = true <->
  exists t, startsAt ev t /\ now < t.
Proof.
  unfold startsAt, JS.gt. destruct (new_Date (startDate ev)) as [t|].
  - rewrite Z.ltb_lt. split; [intros H; now exists t|].
    intros [t' [Ht H]]. injection Ht as ->. exact H.
  - split; [discriminate | intros [t [Ht _]]; discriminate].
Qed.

Lemma past_test (now : Z) (ev : Event) :
  JS.le (new_Date (startDate ev)) (Some now) = true <->
  exists t, startsAt ev t /\ t <= now.
Proof.
  unfold startsAt, JS.le. destruct (new_Date (startDate ev)) as [t|].
  - rewrite Z.leb_le. split; [intros H; now exists t|].
    intros [t' [Ht H]]. injection Ht as ->. exact H.
  - split; [discriminate | intros [t [Ht _]]; discriminate].
Qed.

Lemma upcomingOf_In (now : Z) (allEvents : list Event) (ev : Event) :
  In ev (upcomingOf now allEvents) <->
  In ev allEvents /\ exists t, startsAt ev t /\ now < t.
Proof.
  unfold upcomingOf. now rewrite sort_In, filter_In, upcoming_test.
Qed.

Lemma pastOf_In (now : Z) (allEvents : list Event) (ev : Event) :
  In ev (pastOf now allEvents) <->
  In ev allEvents /\ exists t, startsAt ev t /\ t <= now.
Proof.
  unfold pastOf. now rewrite sort_In, filter_In, past_test.
Qed.

Lemma byStartAscending_key (a b : Event) :
  dated a -> dated b ->
  JS.sortCompare byStartAscending a b = startKey a - startKey b.
Proof.
  unfold dated, JS.sortCompare, byStartAscending, startKey.
  destruct (new_Date (startDate a)), (new_Date (startDate b)); simpl; congruence.
Qed.

Lemma byStartDescending_key (a b : Event) :
  dated a -> dated b ->
  JS.sortCompare byStartDescending a b = - startKey a - - startKey b.
Proof.
  unfold dated, JS.sortCompare, byStartDescending, startKey.
  destruct (new_Date (startDate a)), (new_Date (startDate b)); simpl;
    try congruence.
  intros _ _. lia.
Qed.

(** The upcoming list is in ascending order of start time, whatever the
    events fetched. *)
Lemma upcomingOf_sorted (now : Z) (allEvents : list Event) :
  StronglySorted startsNoLater (upcomingOf now allEvents).
Proof.
  assert (Hdated : Forall dated (upcomingOf now allEvents)).
  { apply Forall_forall. intros ev Hev.
    apply upcomingOf_In in Hev as [_ [t [Ht _]]].
    unfold dated. unfold startsAt in Ht. congruence. }
  apply (StronglySorted_on (fun a b => startKey a <= startKey b) _ dated);
    [| exact Hdated |].
  - intros a b Ha Hb Hab. exists (startKey a), (startKey b).
    auto using dated_startsAt.
  - unfold upcomingOf.
    apply (sort_sorted byStartAscending startKey dated byStartAscending_key).
    apply Forall_forall. intros ev Hev.
    apply (proj2 (sort_In byStartAscending _ _)) in Hev.
    exact (proj1 (Forall_forall _ _) Hdated ev Hev).
Qed.

(** The past list is in descending order of start time. *)
Lemma pastOf_sorted (now : Z) (allEvents : list Event) :
  StronglySorted startsNoEarlier (pastOf now allEvents).
Proof.
  assert (Hdated : Forall dated (pastOf now allEvents)).
  { apply Forall_forall. intros ev Hev.
    apply pastOf_In in Hev as [_ [t [Ht _]]].
    unfold dated. unfold startsAt in Ht. congruence. }
  apply (StronglySorted_on (fun a b => - startKey a <= - startKey b) _ dated);
    [| exact Hdated |].
  - intros a b Ha Hb Hab. exists (startKey a), (startKey b).
    repeat split; auto using dated_startsAt. lia.
  - unfold pastOf.
    apply (sort_sorted byStartDescending (fun ev => - startKey ev) dated
                       byStartDescending_key).
    apply Forall_forall. intros ev Hev.
    apply (proj2 (sort_In byStartDescending _ _)) in Hev.
    exact (proj1 (Forall_forall _ _) Hdated ev Hev).
Qed.

End UpcomingPast.

(** The two halves of a dated list are a rearrangement of it. *)
Lemma upcoming_past_perm {U : Upstream} (now : Z) (allEvents : list Event) :
  Forall dated allEvents ->
  Permutation (upcomingOf now allEvents ++ pastOf now allEvents) allEvents.
Proof.
  intros Hdated. unfold upcomingOf, pastOf.
  rewrite <- (sort_perm byStartAscending), <- (sort_perm byStartDescending).
  apply filter_split_perm.
  eapply Forall_impl; [|exact Hdated].
  intros ev Hev. unfold dated in Hev. unfold JS.le, JS.gt.
  destruct (new_Date (startDate ev)) as [t|]; [|congruence].
  destruct (now <? t) eqn:H; simpl; lia.
Qed.

Lemma upcoming_past_lengths {U : Upstream} (now : Z) (allEvents : list Event) :
  Forall dated allEvents ->
  len (upcomingOf now allEvents) + len (pastOf now allEvents) = len allEvents.
Proof.
  intros Hdated.
  pose proof (Permutation_length (upcoming_past_perm now allEvents Hdated)) as H.
  rewrite length_app in H. unfold len. lia.
Qed.

(** C5. For every list of events whose start dates all parse, the upcoming
    events (start strictly after now) and the past events (start at or
    before now) partition the list: together they are a rearrangement of
    it, every event of the list is in exactly one of the two, the upcoming
    events are in ascending and the past events in descending order of
    start time. *)
Theorem upcoming_past_partition {U : Upstream} (now : Z) (allEvents : list Event) :
  Forall dated allEvents ->
  Permutation (upcomingOf now allEvents ++ pastOf now allEvents) allEvents /\
  (forall ev, In ev allEvents ->
              (In ev (upcomingOf now allEvents) /\ ~ In ev (pastOf now allEvents)) \/
              (~ In ev (upcomingOf now allEvents) /\ In ev (pastOf now allEvents))) /\
  (forall ev, In ev (upcomingOf now allEvents) -> exists t, startsAt ev t /\ now < t) /\
  (forall ev, In ev (pastOf now allEvents) -> exists t, startsAt ev t /\ t <= now) /\
  StronglySorted startsNoLater (upcomingOf now allEvents) /\
  StronglySorted startsNoEarlier (pastOf now allEvents) /\
  (forall fuel w w1,
      getAllEvents fuel w = (Some (Success allEvents), w1) ->
      fst (getUpcomingEvents fuel w)
      = Some (Success (upcomingOf (fst (Date_now w1)) allEvents)) /\
      fst (getPastEvents fuel w)
      = Some (Success (pastOf (fst (Date_now w1)) allEvents))).
Proof.
  intros Hdated.
  split; [|split; [|split; [|split; [|split; [|split]]]]].
  - now apply upcoming_past_perm.
  - intros ev Hev. rewrite upcomingOf_In, pastOf_In.
    pose proof (proj1 (Forall_forall _ _) Hdated ev Hev) as Hd.
    apply dated_startsAt in Hd.
    destruct (Z_lt_le_dec now (startKey ev)) as [Hlt | Hle].
    + left. split; [split; [exact Hev | now exists (startKey ev)]|].
      intros [_ [t [Ht Hle]]]. unfold startsAt in *. rewrite Hd in Ht.
      injection Ht as <-. lia.
    + right. split; [|split; [exact Hev | now exists (startKey ev)]].
      intros [_ [t [Ht Hlt]]]. unfold startsAt in *. rewrite Hd in Ht.
      injection Ht as <-. lia.
  - intros ev Hev. now apply upcomingOf_In in Hev.
  - intros ev Hev. now apply pastOf_In in Hev.
  - apply upcomingOf_sorted.
  - apply pastOf_sorted.
  - intros fuel w w1 Hfetch. unfold getUpcomingEvents, getPastEvents.
    rewrite Hfetch. destruct (Date_now w1) as [clock w2]. split; reflexivity.
Qed.

Lemma upcoming_past_partition_witness :
  Permutation
    (@upcomingOf (Scripted.upstream Scripted.mixedListing) Scripted.june1
                 [Scripted.jazzNight; Scripted.reunion; Scripted.gala] ++
     @pastOf (Scripted.upstream Scripted.mixedListing) Scripted.june1
             [Scripted.jazzNight; Scripted.reunion; Scripted.gala])
    [Scripted.jazzNight; Scripted.reunion; Scripted.gala].
Proof.
  refine (proj1 (@upcoming_past_partition (Scripted.upstream Scripted.mixedListing)
                   Scripted.june1
                   [Scripted.jazzNight; Scripted.reunion; Scripted.gala] _)).
  repeat constructor; vm_compute; discriminate.
Defined.

(** On three dated events the two halves are, in order, the gala then the
    jazz night, and the reunion. *)
Example upcoming_past_example :
  @upcomingOf (Scripted.upstream Scripted.mixedListing) Scripted.june1
              [Scripted.jazzNight; Scripted.reunion; Scripted.gala]
  = [Scripted.gala; Scripted.jazzNight] /\
  @pastOf (Scripted.upstream Scripted.mixedListing) Scripted.june1
          [Scripted.jazzNight; Scripted.reunion; Scripted.gala]
  = [Scripted.reunion].
Proof. split; vm_compute; reflexivity. Qed.

(** C6. An event whose start date is absent or does not parse is in
    neither the upcoming nor the past events, whatever the other events and
    the time; and [getUpcomingEvents], [getPastEvents] and [getDashboard]
    return a success result on every fetched list, with or without such
    events. *)
Theorem undated_event_in_neither {U : Upstream} (ev : Event) :
  new_Date (startDate ev) = None ->
  (forall now allEvents,
      ~ In ev (upcomingOf now allEvents) /\ ~ In ev (pastOf now allEvents)) /\
  (forall fuel w allEvents w1,
      getAllEvents fuel w = (Some (Success allEvents), w1) ->
      exists upcoming past dashboard,
        fst (getUpcomingEvents fuel w) = Some (Success upcoming) /\
        fst (getPastEvents fuel w) = Some (Success past) /\
        fst (getDashboard fuel w) = Some (Success dashboard) /\
        ~ In ev upcoming /\ ~ In ev past).
Proof.
  intros Hnone.
  assert (Hpure : forall now allEvents,
             ~ In ev (upcomingOf now allEvents) /\ ~ In ev (pastOf now allEvents)).
  { intros now allEvents. rewrite upcomingOf_In, pastOf_In.
    split; intros [_ [t [Ht _]]]; unfold startsAt in Ht; congruence. }
  split; [exact Hpure|].
  intros fuel w allEvents w1 Hfetch.
  unfold getUpcomingEvents, getPastEvents, getDashboard. rewrite Hfetch.
  destruct (Date_now w1) as [now w2]. cbn [fst].
  eexists. eexists. eexists.
  split; [reflexivity|]. split; [reflexivity|]. split; [reflexivity|].
  apply Hpure.
Qed.

Lemma undated_event_in_neither_witness :
  ~ In Scripted.undated
       (@upcomingOf (Scripted.upstream Scripted.mixedListing) Scripted.june1
          [Scripted.jazzNight; Scripted.undated; Scripted.reunion;
           Scripted.garbled; Scripted.gala]) /\
  ~ In Scripted.undated
       (@pastOf (Scripted.upstream Scripted.mixedListing) Scripted.june1
          [Scripted.jazzNight; Scripted.undated; Scripted.reunion;
           Scripted.garbled; Scripted.gala]).
Proof.
  refine (proj1 (@undated_event_in_neither (Scripted.upstream Scripted.mixedListing)
                   Scripted.undated _) _ _).
  reflexivity.
Defined.

(** A listing with an undated event and one whose date does not parse: the
    dashboard counts 2 upcoming and 1 past event out of 5. *)
Example dashboard_with_undated_events :
  option_map (fun r => match r with
                       | Success d => Some (totalEvents d, upcomingCount d, pastCount d)
                       | Failure _ => None
                       end)
             (fst (@getDashboard (Scripted.upstream Scripted.mixedListing) 5 Scripted.june1))
  = Some (Some (5, 2, 1)).
Proof. vm_compute. reflexivity. Qed.


(** When every fetched event is dated, the two counts of the dashboard add
    up to the number of events. *)
Lemma getDashboard_counts {U : Upstream}
      (fuel : nat) (w w' : World) (dashboard : Dashboard) (allEvents : list Event) (w1 : World) :
  getAllEvents fuel w = (Some (Success allEvents), w1) ->
  getDashboard fuel w = (Some (Success dashboard), w') ->
  Forall dated allEvents ->
  upcomingCount dashboard + pastCount dashboard = totalEvents dashboard.
Proof.
  intros Hfetch Hdash Hdated. unfold getDashboard in Hdash. rewrite Hfetch in Hdash.
  destruct (Date_now w1) as [now w2]. injection Hdash as <- _.
  cbn [upcomingCount pastCount totalEvents].
  exact (upcoming_past_lengths now allEvents Hdated).
Qed.

(** * Further properties of the code *)

(** ** [getEventTickets] for any number of retries *)





(** ** The ticket pipeline: failure, limit and order *)

Lemma getUpcomingEventsWithTickets_shape {U : Upstream}
      (fuel : nat) (limit : Z) (w w' : World) (data : EventsData) :
  getUpcomingEventsWithTickets fuel limit w = (Some (Success data), w') ->
  exists allEvents w1,
    fetchPages fuel 0 [] w = (Some (inr allEvents), w1) /\
    Forall2 enrichedFrom
            (JS.slice0 limit (upcomingOf (fst (Date_now w1)) allEvents))
            (events data) /\
    events_total data = len (events data).
Proof.
  unfold getUpcomingEventsWithTickets.
  destruct (fetchPages fuel 0 [] w) as [[[err | allEvents]|] w1];
    try discriminate.
  destruct (Date_now w1) as [now w2] eqn:Hnow.
  destruct (enrichLoop_entries (JS.slice0 limit (upcomingOf now allEvents)) w2)
    as [enriched [Hrun Hall]].
  destruct (enrichLoop (JS.slice0 limit (upcomingOf now allEvents)) w2) as [res w3].
  simpl in Hrun. subst res. destruct (Date_now w3) as [stamp w4].
  intros H. injection H as <- _. exists allEvents, w1.
  split; [reflexivity|]. rewrite Hnow. split; [exact Hall | reflexivity].
Qed.

Lemma enrichedFrom_events {U : Upstream} (ups : list Event) (es : list EnrichedEvent) :
  Forall2 enrichedFrom ups es -> map event es = ups.
Proof.
  induction 1 as [|ev e ups es He _ IH]; [reflexivity|].
  cbn [map]. now rewrite IH, (enrichedFrom_event ev e He).
Qed.

Lemma firstn_In {A : Type} (n : nat) (l : list A) (x : A) :
  In x (firstn n l) -> In x l.
Proof.
  intros H. rewrite <- (firstn_skipn n l). apply in_or_app. now left.
Qed.

Lemma slice0_In {A : Type} (e : Z) (l : list A) (x : A) :
  In x (JS.slice0 e l) -> In x l.
Proof.
  unfold JS.slice0. destruct (e <? 0); apply firstn_In.
Qed.

Lemma StronglySorted_firstn {A : Type} (R : A -> A -> Prop) (n : nat) (l : list A) :
  StronglySorted R l -> StronglySorted R (firstn n l).
Proof.
  intros Hs. revert n. induction Hs as [|x l Hs IH Hx]; intros [|n]; cbn [firstn];
    try constructor.
  - apply IH.
  - apply Forall_forall. intros y Hy.
    apply (proj1 (Forall_forall _ _) Hx). now apply (firstn_In n).
Qed.

Lemma StronglySorted_slice0 {A : Type} (R : A -> A -> Prop) (e : Z) (l : list A) :
  StronglySorted R l -> StronglySorted R (JS.slice0 e l).
Proof.
  unfold JS.slice0. destruct (e <? 0); apply StronglySorted_firstn.
Qed.

(** [generateTicketReport] fails exactly when a request for a page of the
    event list is rejected, and then with the message of that rejection; no
    answer of the ticket endpoint makes it fail. *)
Theorem generateTicketReport_fails_on_listing_only {U : Upstream}
        (fuel : nat) (limit : Z) (w w' : World) (msg : string) :
  generateTicketReport fuel limit w = (Some (Failure msg), w') <->
  exists err,
    fetchPages fuel 0 [] w = (Some (inl err), w') /\ msg = message err.
Proof.
  unfold generateTicketReport. split.
  - destruct (getUpcomingEventsWithTickets fuel limit w) as [[[data | msg']|] w1] eqn:Hrun;
      intros H; try discriminate.
    injection H as -> ->.
    destruct (fetchPages fuel 0 [] w) as [[[err | allEvents]|] w1] eqn:Hfetch.
    + unfold getUpcomingEventsWithTickets in Hrun. rewrite Hfetch in Hrun.
      injection Hrun as <- <-. now exists err.
    + destruct (getUpcomingEventsWithTickets_succeeds fuel limit w w1 allEvents Hfetch)
        as [data [w2 [Hok _]]].
      rewrite Hok in Hrun. discriminate.
    + unfold getUpcomingEventsWithTickets in Hrun. rewrite Hfetch in Hrun.
      discriminate.
  - intros [err [Hfetch ->]]. unfold getUpcomingEventsWithTickets.
    rewrite Hfetch. reflexivity.
Qed.

(** The events of a successful run are the first [limit] upcoming events of
    the fetched list, in order; [total] is their number.  For [limit >= 0]
    there are [min limit n] of them, [n] the number of upcoming events; a
    negative [limit] drops that many events from the end instead. *)
Theorem getUpcomingEventsWithTickets_limit {U : Upstream}
        (fuel : nat) (limit : Z) (w w' : World) (data : EventsData) :
  getUpcomingEventsWithTickets fuel limit w = (Some (Success data), w') ->
  exists allEvents w1,
    fetchPages fuel 0 [] w = (Some (inr allEvents), w1) /\
    map event (events data)
    = JS.slice0 limit (upcomingOf (fst (Date_now w1)) allEvents) /\
    events_total data = len (events data) /\
    (0 <= limit ->
     len (events data)
     = Z.min limit (len (upcomingOf (fst (Date_now w1)) allEvents))) /\
    (limit < 0 ->
     len (events data)
     = Z.max 0 (len (upcomingOf (fst (Date_now w1)) allEvents) + limit)).
Proof.
  intros Hrun.
  apply getUpcomingEventsWithTickets_shape in Hrun
    as [allEvents [w1 [Hfetch [Hall Htotal]]]].
  exists allEvents, w1. split; [exact Hfetch|].
  pose proof (enrichedFrom_events _ _ Hall) as Hmap.
  split; [exact Hmap|]. split; [exact Htotal|].
  assert (Hlen : len (events data)
                 = len (JS.slice0 limit (upcomingOf (fst (Date_now w1)) allEvents))).
  { rewrite <- Hmap. unfold len. now rewrite length_map. }
  rewrite Hlen. unfold JS.slice0, len.
  split; intros Hlimit.
  - assert ((limit <? 0) = false) as -> by lia. rewrite length_firstn. lia.
  - assert ((limit <? 0) = true) as -> by lia. rewrite length_firstn. lia.
Qed.

Lemma getUpcomingEventsWithTickets_limit_witness :
  exists data w',
    @getUpcomingEventsWithTickets (Scripted.upstream Scripted.threeEvents) 5 2 Scripted.june1
    = (Some (Success data), w') /\
    map (fun e => title (event e)) (events data) = ["Fundraiser Gala"; "Open Mic"] /\
    events_total data = len (events data).
Proof.
  eexists. eexists.
  assert (Hrun : @getUpcomingEventsWithTickets (Scripted.upstream Scripted.threeEvents)
                   5 2 Scripted.june1 = (Some (Success _), _))
    by (vm_compute; reflexivity).
  split; [exact Hrun|]. split; [vm_compute; reflexivity|].
  destruct (getUpcomingEventsWithTickets_limit _ _ _ _ _ Hrun)
    as [allEvents [w1 [_ [_ [Htotal _]]]]].
  exact Htotal.
Defined.

(** Every event of a successful run is an event of the fetched list whose
    start date parses and lies strictly after the time of the filter, its
    [daysFromNow] is a number, and the events are in ascending order of
    start time. *)
Theorem getUpcomingEventsWithTickets_upcoming_sorted {U : Upstream}
        (fuel : nat) (limit : Z) (w w' : World) (data : EventsData) :
  getUpcomingEventsWithTickets fuel limit w = (Some (Success data), w') ->
  exists allEvents w1,
    fetchPages fuel 0 [] w = (Some (inr allEvents), w1) /\
    StronglySorted startsNoLater (map event (events data)) /\
    Forall (fun e =>
              In (event e) allEvents /\
              exists t days,
                startsAt (event e) t /\ fst (Date_now w1) < t /\
                daysFromNow e = Some days)
           (events data).
Proof.
  intros Hrun.
  pose proof (enriched_all _ _ _ _ _ Hrun) as Hfrom.
  apply getUpcomingEventsWithTickets_shape in Hrun
    as [allEvents [w1 [Hfetch [Hall _]]]].
  exists allEvents, w1. split; [exact Hfetch|].
  pose proof (enrichedFrom_events _ _ Hall) as Hmap.
  split.
  - rewrite Hmap. apply StronglySorted_slice0, upcomingOf_sorted.
  - apply Forall_forall. intros e He.
    assert (Hin : In (event e) (upcomingOf (fst (Date_now w1)) allEvents)).
    { apply (slice0_In limit). rewrite <- Hmap. now apply in_map. }
    apply upcomingOf_In in Hin as [Hin [t [Ht Hlt]]].
    split; [exact Hin|].
    destruct (proj1 (Forall_forall _ _) Hfrom e He) as [w0 [now He']].
    exists t. eexists. split; [exact Ht|]. split; [exact Hlt|].
    rewrite He'. cbn [enrichEvent daysFromNow event].
    unfold startsAt in Ht. rewrite He' in Ht. cbn [enrichEvent event] in Ht.
    rewrite Ht. reflexivity.
Qed.

Lemma getUpcomingEventsWithTickets_upcoming_sorted_witness :
  exists data w',
    @getUpcomingEventsWithTickets (Scripted.upstream Scripted.threeEvents) 5 20 Scripted.june1
    = (Some (Success data), w') /\
    StronglySorted (@startsNoLater (Scripted.upstream Scripted.threeEvents))
                   (map event (events data)).
Proof.
  eexists. eexists.
  assert (Hrun : @getUpcomingEventsWithTickets (Scripted.upstream Scripted.threeEvents)
                   5 20 Scripted.june1 = (Some (Success _), _))
    by (vm_compute; reflexivity).
  split; [exact Hrun|].
  destruct (getUpcomingEventsWithTickets_upcoming_sorted _ _ _ _ _ Hrun)
    as [allEvents [w1 [_ [Hsorted _]]]].
  exact Hsorted.
Defined.

(** ** The counting maps of the report *)












(** ** The top-selling events *)

Section SortStable.
Context {A : Type} (comparefn : A -> A -> option Z) (key : A -> Z).
Hypothesis comparefn_key :
  forall x y, JS.sortCompare comparefn x y = key x - key y.

Lemma insert_stable (x : A) (l : list A) (k : Z) :
  filter (fun y => key y =? k) (JS.insert comparefn x l)
  = if key x =? k then x :: filter (fun y => key y =? k) l
    else filter (fun y => key y =? k) l.
Proof.
  induction l as [|y l IH]; cbn [JS.insert].
  - cbn [filter]. destruct (key x =? k); reflexivity.
  - rewrite comparefn_key. destruct (key x - key y <=? 0) eqn:Hcmp.
    + cbn [filter]. destruct (key x =? k); reflexivity.
    + cbn [filter]. rewrite IH.
      destruct (key y =? k) eqn:Hy, (key x =? k) eqn:Hx; try reflexivity. lia.
Qed.

(** The sort is stable: the elements of each key keep their order. *)
Lemma sort_stable (l : list A) (k : Z) :
  filter (fun y => key y =? k) (JS.sort comparefn l)
  = filter (fun y => key y =? k) l.
Proof.
  induction l as [|x l IH]; [reflexivity|].
  change (JS.sort comparefn (x :: l))
    with (JS.insert comparefn x (JS.sort comparefn l)).
  rewrite insert_stable, IH. cbn [filter]. reflexivity.
Qed.

End SortStable.

Lemma StronglySorted_map {A B : Type} (f : A -> B) (R : B -> B -> Prop) (l : list A) :
  StronglySorted (fun x y => R (f x) (f y)) l -> StronglySorted R (map f l).
Proof.
  induction 1 as [|x l Hs IH Hx]; cbn [map]; constructor; [exact IH|].
  apply Forall_forall. intros y Hy. apply in_map_iff in Hy as [z [<- Hz]].
  now apply (proj1 (Forall_forall _ _) Hx).
Qed.

Lemma StronglySorted_app_cross {A : Type} (R : A -> A -> Prop) (l1 l2 : list A) :
  StronglySorted R (l1 ++ l2) ->
  forall a b, In a l1 -> In b l2 -> R a b.
Proof.
  induction l1 as [|x l1 IH]; cbn [app]; intros Hs a b Ha Hb; [destruct Ha|].
  inversion Hs as [|? ? Hs' Hx]; subst.
  destruct Ha as [<- | Ha].
  - apply (proj1 (Forall_forall _ _) Hx). apply in_or_app. now right.
  - now apply IH.
Qed.

Lemma byTicketsDescending_key (a b : EnrichedEvent) :
  JS.sortCompare byTicketsDescending a b = - ticketsSold a - - ticketsSold b.
Proof. unfold JS.sortCompare, byTicketsDescending. lia. Qed.

(** The events with tickets sold, ranked for [topSellingEvents]. *)
Lemma ranked_sorted (l : list EnrichedEvent) :
  StronglySorted (fun a b => ticketsSold b <= ticketsSold a)
                 (JS.sort byTicketsDescending l).
Proof.
  apply (StronglySorted_on (fun a b => - ticketsSold a <= - ticketsSold b) _
                           (fun _ => True)).
  - intros a b _ _ H. lia.
  - apply Forall_forall. intros; exact I.
  - apply (sort_sorted byTicketsDescending (fun e => - ticketsSold e)
             (fun _ => True)).
    + intros x y _ _. apply byTicketsDescending_key.
    + apply Forall_forall. intros; exact I.
Qed.

(** In every report [topSellingEvents] has at most 5 entries - as many as
    there are events with tickets sold, if these are fewer - each with at
    least one ticket, in descending order of tickets; and every event with
    tickets sold that is not listed sold at most as many tickets as each
    listed one. *)
Theorem topSellingEvents_top (data : EventsData) :
  let top := topSellingEvents (summary (buildReport data)) in
  let sellers := filter (fun e => 0 <? ticketsSold e) (events data) in
  len top = Z.min 5 (len sellers) /\
  Forall (fun t => 0 < Seller.tickets t) top /\
  StronglySorted (fun a b => Seller.tickets b <= Seller.tickets a) top /\
  (forall e, In e sellers ->
             In (topSeller e) top \/
             Forall (fun t => ticketsSold e <= Seller.tickets t) top).
Proof.
  intros top sellers.
  set (ranked := JS.sort byTicketsDescending sellers).
  assert (Htop : top = map topSeller (firstn 5 ranked)) by reflexivity.
  pose proof (sort_perm byTicketsDescending sellers) as Hperm. fold ranked in Hperm.
  pose proof (ranked_sorted sellers) as Hsorted. fold ranked in Hsorted.
  rewrite Htop. split; [|split; [|split]].
  - unfold len. rewrite length_map, length_firstn, (Permutation_length Hperm). lia.
  - apply Forall_forall. intros t Ht. apply in_map_iff in Ht as [e [<- He]].
    apply firstn_In in He. apply (Permutation_in _ (Permutation_sym Hperm)) in He.
    apply filter_In in He as [_ He]. cbn [topSeller Seller.tickets]. lia.
  - apply StronglySorted_map. cbn [topSeller Seller.tickets].
    now apply StronglySorted_firstn.
  - intros e He. apply (Permutation_in _ Hperm) in He.
    rewrite <- (firstn_skipn 5 ranked) in He. apply in_app_or in He as [He | He].
    + left. now apply in_map.
    + right. apply Forall_forall. intros t Ht.
      apply in_map_iff in Ht as [e' [<- He']]. cbn [topSeller Seller.tickets].
      rewrite <- (firstn_skipn 5 ranked) in Hsorted.
      exact (StronglySorted_app_cross _ _ _ Hsorted e' e He' He).
Qed.

(** Events with the same number of tickets are ranked in the order of the
    report: [topSellingEvents] is made of the first 5 of a rearrangement of
    the events with tickets sold in which, for every number of tickets, the
    events with that number keep their relative order. *)
Theorem topSellingEvents_ties_keep_order (data : EventsData) :
  let sellers := filter (fun e => 0 <? ticketsSold e) (events data) in
  exists ranked,
    topSellingEvents (summary (buildReport data)) = map topSeller (firstn 5 ranked) /\
    Permutation sellers ranked /\
    (forall k, filter (fun e => ticketsSold e =? k) ranked
               = filter (fun e => ticketsSold e =? k) sellers).
Proof.
  intros sellers. exists (JS.sort byTicketsDescending sellers).
  split; [reflexivity|]. split; [apply sort_perm|].
  intros k.
  pose proof (sort_stable byTicketsDescending (fun e => - ticketsSold e)
                          byTicketsDescending_key sellers (- k)) as H.
  assert (Hext : forall e : EnrichedEvent,
             (ticketsSold e =? k) = (- ticketsSold e =? - k)).
  { intros e. destruct (ticketsSold e =? k) eqn:E; lia. }
  rewrite !(filter_ext _ _ Hext). exact H.
Qed.

(** ** Urgent events, flags and the rounding of the average *)

Lemma salesStatusOf_urgent (sold : Z) (days : option Z) :
  String.eqb (salesStatusOf sold days) "urgent"
  = JS.le days (Some 7) && (sold =? 0).
Proof.
  unfold salesStatusOf.
  destruct (JS.le days (Some 7) && (sold =? 0)); [reflexivity|].
  destruct (25 <=? sold); [reflexivity|].
  destruct (10 <=? sold); reflexivity.
Qed.

Lemma filter_twice {A : Type} (p q r : A -> bool) (l : list A) :
  Forall (fun x => p x = q x && r x) l ->
  filter p l = filter r (filter q l).
Proof.
  induction 1 as [|x l Hx _ IH]; [reflexivity|].
  cbn [filter]. rewrite Hx. destruct (q x); cbn [andb filter].
  - destruct (r x); now rewrite IH.
  - exact IH.
Qed.

(** In every generated report the urgent events are exactly this week's
    events without a ticket sold, and none of them is among the top-selling
    events. *)
Theorem urgentEvents_within_this_week {U : Upstream}
        (fuel : nat) (limit : Z) (w w' : World) (report : Report) :
  generateTicketReport fuel limit w = (Some (Success report), w') ->
  urgentEvents (summary report)
  = filter (fun e => ticketsSold e =? 0) (thisWeekEvents (summary report)) /\
  Forall (fun e => ~ In (topSeller e) (topSellingEvents (summary report)))
         (urgentEvents (summary report)).
Proof.
  intros Hrun.
  apply generateTicketReport_inv in Hrun as [data [Hrun ->]].
  apply enriched_all in Hrun.
  cbn [buildReport summary urgentEvents thisWeekEvents topSellingEvents].
  assert (Hurgent : filter (hasStatus "urgent") (events data)
                    = filter (fun e => ticketsSold e =? 0)
                             (filter (fun e => JS.le (daysFromNow e) (Some 7))
                                     (events data))).
  { apply filter_twice. eapply Forall_impl; [|exact Hrun].
    intros e [w0 [now ->]]. unfold hasStatus. cbn [enrichEvent salesStatus daysFromNow ticketsSold].
    apply salesStatusOf_urgent. }
  split; [exact Hurgent|].
  rewrite Hurgent. apply Forall_forall. intros e He Htop.
  apply filter_In in He as [_ Hzero].
  apply in_map_iff in Htop as [e' [Heq He']].
  apply firstn_In in He'.
  apply (proj1 (sort_In byTicketsDescending _ _)) in He'.
  apply filter_In in He' as [_ Hpos].
  assert (Hsame : ticketsSold e' = ticketsSold e).
  { change (Seller.tickets (topSeller e') = Seller.tickets (topSeller e)). now rewrite Heq. }
  lia.
Qed.

Lemma urgentEvents_within_this_week_witness :
  exists report w',
    @generateTicketReport (Scripted.upstream Scripted.threeEvents) 5 20 Scripted.june1
    = (Some (Success report), w') /\
    urgentEvents (summary report)
    = filter (fun e => ticketsSold e =? 0) (thisWeekEvents (summary report)).
Proof.
  eexists. eexists.
  assert (Hrun : @generateTicketReport (Scripted.upstream Scripted.threeEvents)
                   5 20 Scripted.june1 = (Some (Success _), _))
    by (vm_compute; reflexivity).
  split; [exact Hrun|].
  exact (proj1 (urgentEvents_within_this_week _ _ _ _ _ Hrun)).
Defined.

Lemma isRSVPEvent_types (name : string) :
  isRSVPEvent name = true ->
  In (categorizeEvent name) ["Open Mic"; "Jam Session"; "Workshop"].
Proof.
  unfold isRSVPEvent, categorizeEvent.
  destruct (JS.includes (JS.toLowerCase name) "open mic"); [simpl; tauto|].
  destruct (JS.includes (JS.toLowerCase name) "jam"); [simpl; tauto|].
  destruct (JS.includes (JS.toLowerCase name) "lessons"); [simpl; tauto|].
  discriminate.
Qed.

(** In every generated report: an event flagged RSVP-only has no ticket
    sold, is not flagged free, is an Open Mic, a Jam Session or a Workshop
    and has the status urgent or low; an event flagged free has tickets
    sold, all of them free; and an event is flagged paid exactly when it has
    a paid ticket record. *)
Theorem report_flags_consistent {U : Upstream}
        (fuel : nat) (limit : Z) (w w' : World) (report : Report) :
  generateTicketReport fuel limit w = (Some (Success report), w') ->
  Forall (fun r =>
            (EventRow.isRSVPOnly r = true ->
             EventRow.ticketsSold r = 0 /\ EventRow.isFree r = false /\
             In (EventRow.eventType r) ["Open Mic"; "Jam Session"; "Workshop"] /\
             In (EventRow.salesStatus r) ["urgent"; "low"]) /\
            (EventRow.isFree r = true ->
             0 < EventRow.ticketsSold r /\ EventRow.freeTickets r = EventRow.ticketsSold r) /\
            EventRow.isPaid r = (0 <? EventRow.paidTickets r))
         (report_events report).
Proof.
  intros Hrun.
  apply generateTicketReport_inv in Hrun as [data [Hrun ->]].
  apply enriched_all in Hrun.
  cbn [buildReport report_events]. apply Forall_map.
  eapply Forall_impl; [|exact Hrun].
  intros e [w0 [now ->]].
  set (result := resultOf (fst (get_tickets (id (event e)) w0))).
  cbn [reportRow enrichEvent EventRow.isRSVPOnly EventRow.ticketsSold EventRow.isFree
       EventRow.eventType EventRow.salesStatus EventRow.freeTickets EventRow.isPaid EventRow.paidTickets
       isRSVPOnly ticketsSold isFree eventType salesStatus freeTickets isPaid
       paidTickets daysFromNow].
  split; [|split; [|reflexivity]].
  - intros H. apply andb_true_iff in H as [Hzero Hrsvp].
    apply Z.eqb_eq in Hzero. rewrite Hzero.
    split; [reflexivity|]. split; [now rewrite andb_false_r|].
    split; [now apply isRSVPEvent_types|].
    unfold salesStatusOf. cbn.
    destruct (JS.le _ (Some 7)); simpl; tauto.
  - intros H. apply andb_true_iff in H as [Hall Hpos]. lia.
Qed.

Lemma report_flags_consistent_witness :
  exists report w',
    @generateTicketReport (Scripted.upstream Scripted.threeEvents) 5 20 Scripted.june1
    = (Some (Success report), w') /\
    Forall (fun r => EventRow.isPaid r = (0 <? EventRow.paidTickets r)) (report_events report).
Proof.
  eexists. eexists.
  assert (Hrun : @generateTicketReport (Scripted.upstream Scripted.threeEvents)
                   5 20 Scripted.june1 = (Some (Success _), _))
    by (vm_compute; reflexivity).
  split; [exact Hrun|].
  eapply Forall_impl; [|exact (report_flags_consistent _ _ _ _ _ Hrun)].
  intros r [_ [_ H]]. exact H.
Defined.

(** In every report with at least one ticketed event, the average is a whole
    number of tenths, less than 1/20 below and at most 1/20 above the exact
    quotient of the tickets sold by the number of ticketed events. *)
Theorem average_rounding (data : EventsData) :
  let s := summary (buildReport data) in
  0 < ticketedEventsCount s ->
  let exact := (inject_Z (totalTicketsSold s) / inject_Z (ticketedEventsCount s))%Q in
  (exists tenths : Z, averageTicketsPerEvent s == tenths # 10)%Q /\
  (exact - (1 # 20) < averageTicketsPerEvent s)%Q /\
  (averageTicketsPerEvent s <= exact + (1 # 20))%Q.
Proof.
  intros s Hpos exact.
  assert (Havg : averageTicketsPerEvent s = oneDecimal exact).
  { unfold s, exact in *.
    cbn [buildReport summary averageTicketsPerEvent ticketedEventsCount totalTicketsSold] in *.
    assert ((0 <? len (filter isTicketed (events data))) = true) as -> by lia.
    reflexivity. }
  rewrite Havg. destruct (oneDecimal_close exact) as [_ [Hlo Hhi]].
  split; [|split; [exact Hlo | exact Hhi]].
  exists (JS.Math_round (exact * inject_Z 10)). unfold oneDecimal.
  unfold Qdiv, Qmult, Qinv, inject_Z, Qeq. simpl. lia.
Qed.

Lemma average_rounding_witness :
  (exists tenths : Z,
      averageTicketsPerEvent
        (summary (buildReport
                    {| events := [@enrichEvent (Scripted.upstream Scripted.threeEvents) Scripted.jazzNight
                                              (resultOf (Scripted.sold 7 0)) Scripted.june1;
                                  @enrichEvent (Scripted.upstream Scripted.threeEvents) Scripted.gala
                                              (resultOf (Scripted.sold 4 0)) Scripted.june1;
                                  @enrichEvent (Scripted.upstream Scripted.threeEvents) Scripted.brunch
                                              (resultOf (Scripted.sold 0 5)) Scripted.june1];
                       events_total := 3; generatedAt := Scripted.june1 |}))
      == tenths # 10)%Q.
Proof.
  refine (proj1 (average_rounding _ _)).
  vm_compute. reflexivity.
Defined.

(** ** [getAllEvents] and the dashboard ([venue-manager.js]) *)



(** When the first answer declares no total, or a total that the first
    batch already reaches, [getAllEvents] returns the first batch after
    that single request. *)
Theorem getAllEvents_single_request {U : Upstream}
        (fuel : nat) (w w1 : World) (data : EventsBody) :
  get_events 100 0 w = (inr data, w1) ->
  (forall n, page_total data = Some n -> n <= len (JS.arrOr (page_events data) [])) ->
  getAllEvents fuel w = (Some (Success (JS.arrOr (page_events data) [])), w1).
Proof.
  intros Hfirst Htotal. unfold getAllEvents. rewrite Hfirst.
  assert (Hstop : JS.gt (page_total data)
                        (Some (len (JS.arrOr (page_events data) []))) = false).
  { destruct (page_total data) as [n|]; [|reflexivity].
    specialize (Htotal n eq_refl). cbn [JS.gt]. lia. }
  destruct fuel; cbn [morePages]; rewrite Hstop; reflexivity.
Qed.

Lemma getAllEvents_single_request_witness :
  @getAllEvents (Scripted.upstream Scripted.mixedListing) 0 Scripted.june1
  = (Some (Success [Scripted.jazzNight; Scripted.undated; Scripted.reunion;
                    Scripted.garbled; Scripted.gala]), Scripted.june1).
Proof.
  refine (@getAllEvents_single_request (Scripted.upstream Scripted.mixedListing)
            0 Scripted.june1 Scripted.june1
            {| page_events := Some [Scripted.jazzNight; Scripted.undated;
                                    Scripted.reunion; Scripted.garbled; Scripted.gala];
               page_total := Some 5 |} _ _).
  - reflexivity.
  - intros n Hn. injection Hn as <-. vm_compute. discriminate.
Defined.

Lemma three_way_lengths {U : Upstream} (now : Z) (allEvents : list Event) :
  len (upcomingOf now allEvents) + len (pastOf now allEvents)
  + len (filter undated allEvents) = len allEvents.
Proof.
  unfold upcomingOf, pastOf, len.
  rewrite <- (Permutation_length (sort_perm byStartAscending _)),
    <- (Permutation_length (sort_perm byStartDescending _)).
  induction allEvents as [|ev l IH]; [reflexivity|].
  cbn [filter]. unfold undated at 1, JS.gt at 1, JS.le at 1.
  destruct (new_Date (startDate ev)) as [t|].
  - destruct (now <? t) eqn:Hlt.
    + assert ((t <=? now) = false) as -> by lia. cbn [List.length]. lia.
    + assert ((t <=? now) = true) as -> by lia. cbn [List.length]. lia.
  - cbn [List.length]. lia.
Qed.

(** The dashboard counts every fetched event once: the upcoming events, the
    past events and the events without a start date that parses add up to
    the total. *)
Theorem getDashboard_counts_all {U : Upstream}
        (fuel : nat) (w w1 w' : World) (allEvents : list Event) (dashboard : Dashboard) :
  getAllEvents fuel w = (Some (Success allEvents), w1) ->
  getDashboard fuel w = (Some (Success dashboard), w') ->
  totalEvents dashboard = len allEvents /\
  upcomingCount dashboard + pastCount dashboard + len (filter undated allEvents)
  = totalEvents dashboard.
Proof.
  intros Hfetch Hdash. unfold getDashboard in Hdash. rewrite Hfetch in Hdash.
  destruct (Date_now w1) as [now w2]. injection Hdash as <- _.
  cbn [upcomingCount pastCount totalEvents].
  split; [reflexivity | apply three_way_lengths].
Qed.

Lemma getDashboard_counts_all_witness :
  exists dashboard w',
    @getDashboard (Scripted.upstream Scripted.mixedListing) 5 Scripted.june1
    = (Some (Success dashboard), w') /\
    upcomingCount dashboard + pastCount dashboard
    + len (filter (@undated (Scripted.upstream Scripted.mixedListing))
                  [Scripted.jazzNight; Scripted.undated; Scripted.reunion;
                   Scripted.garbled; Scripted.gala])
    = totalEvents dashboard.
Proof.
  eexists. eexists.
  assert (Hdash : @getDashboard (Scripted.upstream Scripted.mixedListing) 5 Scripted.june1
                  = (Some (Success _), _)) by (vm_compute; reflexivity).
  split; [exact Hdash|].
  refine (proj2 (@getDashboard_counts_all (Scripted.upstream Scripted.mixedListing)
                   5 Scripted.june1 Scripted.june1 _ _ _ _ Hdash)).
  vm_compute. reflexivity.
Defined.

Lemma sorted_head {A : Type} (R : A -> A -> Prop) (x : A) (l : list A) :
  StronglySorted R (x :: l) -> forall y, In y l -> R x y.
Proof.
  intros Hs y Hy. inversion Hs as [|? ? _ Hx]; subst.
  now apply (proj1 (Forall_forall _ _) Hx).
Qed.

Lemma startsAt_unique {U : Upstream} (ev : Event) (t t' : Z) :
  startsAt ev t -> startsAt ev t' -> t = t'.
Proof. unfold startsAt. congruence. Qed.

Lemma upcoming_head_none {U : Upstream} (now : Z) (allEvents : list Event) :
  hd_error (upcomingOf now allEvents) = None <->
  forall ev t, In ev allEvents -> startsAt ev t -> t <= now.
Proof.
  pose proof (upcomingOf_In now allEvents) as Hin.
  destruct (upcomingOf now allEvents) as [|x ups]; cbn [hd_error]; split.
  - intros _ ev t Hev Ht.
    destruct (Z_lt_le_dec now t) as [Hlt | Hle]; [|exact Hle].
    exfalso. apply (proj2 (Hin ev)). split; [exact Hev | now exists t].
  - reflexivity.
  - discriminate.
  - intros H. exfalso.
    destruct (proj1 (Hin x) (or_introl eq_refl)) as [Hx [t [Ht Hlt]]].
    specialize (H x t Hx Ht). lia.
Qed.

Lemma upcoming_head_some {U : Upstream} (now : Z) (allEvents : list Event) (e : Event) :
  hd_error (upcomingOf now allEvents) = Some e ->
  In e allEvents /\
  exists t, startsAt e t /\ now < t /\
            forall ev t', In ev allEvents -> startsAt ev t' -> now < t' -> t <= t'.
Proof.
  pose proof (upcomingOf_In now allEvents) as Hin.
  pose proof (upcomingOf_sorted now allEvents) as Hsorted.
  destruct (upcomingOf now allEvents) as [|x ups]; cbn [hd_error]; [discriminate|].
  intros He. injection He as <-.
  destruct (proj1 (Hin x) (or_introl eq_refl)) as [Hx [t [Ht Hlt]]].
  split; [exact Hx|]. exists t. split; [exact Ht|]. split; [exact Hlt|].
  intros ev t' Hev Ht' Hlt'.
  destruct (proj2 (Hin ev) (conj Hev (ex_intro _ t' (conj Ht' Hlt')))) as [<- | Hrest].
  - rewrite (startsAt_unique _ _ _ Ht Ht'). lia.
  - destruct (sorted_head _ _ _ Hsorted ev Hrest) as [ta [tb [Ha [Hb Hab]]]].
    rewrite (startsAt_unique _ _ _ Ht Ha), (startsAt_unique _ _ _ Ht' Hb). exact Hab.
Qed.

Lemma past_head_none {U : Upstream} (now : Z) (allEvents : list Event) :
  hd_error (pastOf now allEvents) = None <->
  forall ev t, In ev allEvents -> startsAt ev t -> now < t.
Proof.
  pose proof (pastOf_In now allEvents) as Hin.
  destruct (pastOf now allEvents) as [|x pasts]; cbn [hd_error]; split.
  - intros _ ev t Hev Ht.
    destruct (Z_lt_le_dec now t) as [Hlt | Hle]; [exact Hlt|].
    exfalso. apply (proj2 (Hin ev)). split; [exact Hev | now exists t].
  - reflexivity.
  - discriminate.
  - intros H. exfalso.
    destruct (proj1 (Hin x) (or_introl eq_refl)) as [Hx [t [Ht Hle]]].
    specialize (H x t Hx Ht). lia.
Qed.

Lemma past_head_some {U : Upstream} (now : Z) (allEvents : list Event) (e : Event) :
  hd_error (pastOf now allEvents) = Some e ->
  In e allEvents /\
  exists t, startsAt e t /\ t <= now /\
            forall ev t', In ev allEvents -> startsAt ev t' -> t' <= now -> t' <= t.
Proof.
  pose proof (pastOf_In now allEvents) as Hin.
  pose proof (pastOf_sorted now allEvents) as Hsorted.
  destruct (pastOf now allEvents) as [|x pasts]; cbn [hd_error]; [discriminate|].
  intros He. injection He as <-.
  destruct (proj1 (Hin x) (or_introl eq_refl)) as [Hx [t [Ht Hle]]].
  split; [exact Hx|]. exists t. split; [exact Ht|]. split; [exact Hle|].
  intros ev t' Hev Ht' Hle'.
  destruct (proj2 (Hin ev) (conj Hev (ex_intro _ t' (conj Ht' Hle')))) as [<- | Hrest].
  - rewrite (startsAt_unique _ _ _ Ht Ht'). lia.
  - destruct (sorted_head _ _ _ Hsorted ev Hrest) as [ta [tb [Ha [Hb Hab]]]].
    rewrite (startsAt_unique _ _ _ Ht Ha), (startsAt_unique _ _ _ Ht' Hb). exact Hab.
Qed.

(** The dashboard's [nextEvent] is the earliest event that starts after the
    time of the dashboard, and [null] exactly when no fetched event does;
    its [recentEvent] is the latest event that started at or before that
    time, and [null] exactly when there is none. *)
Theorem getDashboard_next_and_recent {U : Upstream}
        (fuel : nat) (w w1 : World) (allEvents : list Event) :
  getAllEvents fuel w = (Some (Success allEvents), w1) ->
  exists dashboard,
    fst (getDashboard fuel w) = Some (Success dashboard) /\
    let now := fst (Date_now w1) in
    (nextEvent dashboard = None <->
     forall ev t, In ev allEvents -> startsAt ev t -> t <= now) /\
    (forall e, nextEvent dashboard = Some e ->
               In e allEvents /\
               exists t, startsAt e t /\ now < t /\
                         forall ev t', In ev allEvents -> startsAt ev t' ->
                                       now < t' -> t <= t') /\
    (recentEvent dashboard = None <->
     forall ev t, In ev allEvents -> startsAt ev t -> now < t) /\
    (forall e, recentEvent dashboard = Some e ->
               In e allEvents /\
               exists t, startsAt e t /\ t <= now /\
                         forall ev t', In ev allEvents -> startsAt ev t' ->
                                       t' <= now -> t' <= t).
Proof.
  intros Hfetch. unfold getDashboard. rewrite Hfetch.
  destruct (Date_now w1) as [now w2]. cbn [fst].
  eexists. split; [reflexivity|].
  cbn [nextEvent recentEvent].
  split; [apply upcoming_head_none|].
  split; [apply upcoming_head_some|].
  split; [apply past_head_none | apply past_head_some].
Qed.

Lemma getDashboard_next_and_recent_witness :
  exists dashboard,
    fst (@getDashboard (Scripted.upstream Scripted.mixedListing) 5 Scripted.june1)
    = Some (Success dashboard) /\
    (forall e, nextEvent dashboard = Some e ->
               In e [Scripted.jazzNight; Scripted.undated; Scripted.reunion;
                     Scripted.garbled; Scripted.gala]).
Proof.
  destruct (@getDashboard_next_and_recent (Scripted.upstream Scripted.mixedListing)
              5 Scripted.june1 Scripted.june1
              [Scripted.jazzNight; Scripted.undated; Scripted.reunion;
               Scripted.garbled; Scripted.gala])
    as [dashboard [Hdash [_ [Hnext _]]]].
  - vm_compute. reflexivity.
  - exists dashboard. split; [exact Hdash|].
    intros e He. exact (proj1 (Hnext e He)).
Defined.

(** ** The attendance enrichment and report ([simplified-venue-manager.js]) *)

(** The popularity of an enriched event: a recurring title ("open mic", "jam
    night" or "voice lessons" in the lower-cased title) gives ['recurring']
    whatever the counts; otherwise the status is ['info'] without RSVPs and
    bookings, and with some it is ['high'] above 20 attendees in total,
    ['medium'] above 10 and ['low'] up to 10.  The total attendance is the
    sum of the two counts, and the booking count is never negative. *)
Theorem attend_popularity {U : Upstream}
        (ev : Event) (rsvpAnswer : HttpError + RsvpsBody)
        (bookingAnswer : HttpError + BookingsBody) (now : Z) :
  let a := Simplified.attend ev rsvpAnswer bookingAnswer now in
  let t := JS.toLowerCase (title ev) in
  let some := 0 < Simplified.rsvpCount a \/ 0 < Simplified.ticketsSold a in
  Simplified.totalAttendance a = Simplified.rsvpCount a + Simplified.ticketsSold a /\
  0 <= Simplified.ticketsSold a /\
  (Simplified.isRecurring a = true <->
   occursIn "open mic" t \/ occursIn "jam night" t \/ occursIn "voice lessons" t) /\
  (Simplified.isRecurring a = true -> Simplified.popularityStatus a = "recurring") /\
  (Simplified.isRecurring a = false ->
   (~ some -> Simplified.popularityStatus a = "info") /\
   (some -> 20 < Simplified.totalAttendance a ->
    Simplified.popularityStatus a = "high") /\
   (some -> 10 < Simplified.totalAttendance a <= 20 ->
    Simplified.popularityStatus a = "medium") /\
   (some -> Simplified.totalAttendance a <= 10 ->
    Simplified.popularityStatus a = "low")).
Proof.
  intros a t some. subst some a t. unfold Simplified.attend.
  cbn [Simplified.totalAttendance Simplified.rsvpCount Simplified.ticketsSold
       Simplified.isRecurring Simplified.popularityStatus].
  set (t := JS.toLowerCase (title ev)).
  set (rsvps := match rsvpAnswer with
                | inl _ => 0
                | inr data => JS.numOr (rsvps_total data) 0
                end).
  set (sold := match bookingAnswer with
               | inl _ => 0
               | inr data => JS.numOr (option_map len (bookings data)) 0
               end).
  set (recurring := JS.includes t "open mic" || JS.includes t "jam night"
                    || JS.includes t "voice lessons").
  split; [reflexivity|]. split; [|split; [|split]].
  - unfold sold. destruct bookingAnswer as [err | data]; [lia|].
    destruct (bookings data) as [l|]; cbn [option_map JS.numOr]; [|lia].
    pose proof (len_nonneg l). destruct (len l =? 0); lia.
  - unfold recurring. rewrite !orb_true_iff, !includes_spec. tauto.
  - intros H. rewrite H. reflexivity.
  - clearbody recurring rsvps sold.
    intros H. rewrite H. cbv iota.
    destruct ((0 <? rsvps) || (0 <? sold)) eqn:Hsome.
    + apply orb_true_iff in Hsome.
      assert (Hpos : 0 < rsvps \/ 0 < sold) by (destruct Hsome; [left | right]; lia).
      split; [intros Hnot; now destruct Hnot|].
      split; [|split]; intros _ Hrange.
      * assert ((20 <? rsvps + sold) = true) as -> by lia. reflexivity.
      * assert ((20 <? rsvps + sold) = false) as -> by lia.
        assert ((10 <? rsvps + sold) = true) as -> by lia. reflexivity.
      * assert ((20 <? rsvps + sold) = false) as -> by lia.
        assert ((10 <? rsvps + sold) = false) as -> by lia. reflexivity.
    + apply orb_false_iff in Hsome as [Hr Hs].
      split; [reflexivity|].
      split; [|split]; intros [Hp | Hp] _; lia.
Qed.

Lemma length_append (s t : string) :
  String.length (s ++ t) = (String.length s + String.length t)%nat.
Proof. induction s as [|c s IH]; simpl; [reflexivity | now rewrite IH]. Qed.

Lemma not_endsWith_short (base suffix : string) :
  (String.length base <= String.length suffix)%nat -> base <> suffix ->
  ~ endsWith base suffix.
Proof.
  intros Hlen Hneq [before H]. destruct before as [|c before].
  - now apply Hneq.
  - apply (f_equal String.length) in H. rewrite length_append in H.
    simpl in H. lia.
Qed.

(** The status text of an enriched event ends with " - Coming Soon!"
    exactly when the event is at most 7 days away. *)
Theorem attend_coming_soon {U : Upstream}
        (ev : Event) (rsvpAnswer : HttpError + RsvpsBody)
        (bookingAnswer : HttpError + BookingsBody) (now : Z) :
  let a := Simplified.attend ev rsvpAnswer bookingAnswer now in
  endsWith (Simplified.statusText a) " - Coming Soon!" <->
  exists days, Simplified.daysFromNow a = Some days /\ days <= 7.
Proof.
  intros a. subst a. unfold Simplified.attend.
  cbn [Simplified.statusText Simplified.daysFromNow].
  set (days := daysUntil (new_Date (startDate ev)) now).
  assert (Hle : JS.le days (Some 7) = true <-> exists d, days = Some d /\ d <= 7).
  { unfold JS.le. destruct days as [d|].
    - rewrite Z.leb_le. split; [intros H; now exists d|].
      intros [d' [Hd H]]. now injection Hd as ->.
    - split; [discriminate | intros [d [Hd _]]; discriminate]. }
  rewrite <- Hle. clear Hle.
  destruct (JS.le days (Some 7)).
  - split; [reflexivity|]. intros _. eexists. reflexivity.
  - split; [|discriminate]. intros Hends. exfalso. revert Hends.
    destruct (JS.includes (JS.toLowerCase (title ev)) "open mic"
              || JS.includes (JS.toLowerCase (title ev)) "jam night"
              || JS.includes (JS.toLowerCase (title ev)) "voice lessons");
      [apply not_endsWith_short; [simpl; lia | discriminate]|].
    match goal with
    | |- context [if ?c then _ else ("info", _)] => destruct c
    end; [|apply not_endsWith_short; [simpl; lia | discriminate]].
    match goal with
    | |- context [if ?c then ("high", _) else _] => destruct c
    end; [apply not_endsWith_short; [simpl; lia | discriminate]|].
    match goal with
    | |- context [if ?c then ("medium", _) else _] => destruct c
    end; apply not_endsWith_short; simpl; try lia; discriminate.
Qed.

(** ** The attendance pipeline and its summary *)

Lemma simplified_shape {U : Upstream}
      (fuel : nat) (limit : Z) (w w' : World) (data : SimplifiedManager.Data) :
  SimplifiedManager.getUpcomingEvents fuel limit w = (Some (Success data), w') ->
  exists allEvents w1,
    SimplifiedManager.fetchPages fuel 0 [] w = (Some (inr allEvents), w1) /\
    Forall2 (fun ev a =>
               exists rsvpAnswer bookingAnswer now,
                 a = Simplified.attend ev rsvpAnswer bookingAnswer now)
            (JS.slice0 limit (upcomingOf (fst (Date_now w1)) allEvents))
            (SimplifiedManager.events data) /\
    SimplifiedManager.total data = len (SimplifiedManager.events data).
Proof.
  unfold SimplifiedManager.getUpcomingEvents.
  destruct (SimplifiedManager.fetchPages fuel 0 [] w) as [[[err | allEvents]|] w1];
    try discriminate.
  destruct (Date_now w1) as [now w2] eqn:Hnow.
  pose proof (attendAll_entries (JS.slice0 limit (upcomingOf now allEvents)) w2) as Hall.
  destruct (Simplified.attendAll (JS.slice0 limit (upcomingOf now allEvents)) w2)
    as [attended w3].
  destruct (Date_now w3) as [stamp w4].
  intros H. injection H as <- _. exists allEvents, w1.
  split; [reflexivity|]. rewrite Hnow. split; [exact Hall | reflexivity].
Qed.

(** [getUpcomingEvents] of [simplified-venue-manager.js] fails exactly when
    a request for a page of the event list is rejected, with the message of
    that rejection: no RSVP or booking request makes it fail. *)
Theorem simplified_fails_on_listing_only {U : Upstream}
        (fuel : nat) (limit : Z) (w w' : World) (msg : string) :
  SimplifiedManager.getUpcomingEvents fuel limit w = (Some (Failure msg), w') <->
  exists err,
    SimplifiedManager.fetchPages fuel 0 [] w = (Some (inl err), w') /\
    msg = message err.
Proof.
  unfold SimplifiedManager.getUpcomingEvents.
  destruct (SimplifiedManager.fetchPages fuel 0 [] w) as [[[err | allEvents]|] w1].
  - split.
    + intros H. injection H as <- <-. now exists err.
    + intros [err' [H ->]]. now injection H as -> ->.
  - destruct (Date_now w1) as [now w2].
    destruct (Simplified.attendAll (JS.slice0 limit (upcomingOf now allEvents)) w2)
      as [attended w3].
    destruct (Date_now w3) as [stamp w4].
    split; [discriminate | intros [err [H _]]; discriminate].
  - split; [discriminate | intros [err [H _]]; discriminate].
Qed.

Lemma len_filter_le {A : Type} (p q : A -> bool) (l : list A) :
  (forall x, p x = true -> q x = true) ->
  len (filter p l) <= len (filter q l) <= len l.
Proof.
  intros Himp. induction l as [|x l IH]; cbn [filter]; [unfold len; simpl; lia|].
  specialize (Himp x).
  destruct (p x), (q x); rewrite ?len_cons; try lia;
    discriminate (Himp eq_refl).
Qed.

(** In the summary of the attendance report, the events of this week are
    among the events of this month, which are among all listed events; the
    total attendance is the sum of the RSVP counts and of the booking
    counts; and the average is taken over all listed events, to one decimal
    place, and is 0 for an empty list. *)
Theorem simplified_summary {U : Upstream}
        (fuel : nat) (limit : Z) (w w' : World) (data : SimplifiedManager.Data) :
  SimplifiedManager.getUpcomingEvents fuel limit w = (Some (Success data), w') ->
  let s := SimplifiedManager.reportSummary data in
  let entries := SimplifiedManager.events data in
  SimplifiedManager.eventsThisWeek s <= SimplifiedManager.eventsThisMonth s
  <= SimplifiedManager.totalUpcomingEvents s /\
  SimplifiedManager.totalAttendance s
  = sumOf (map Simplified.rsvpCount entries) + sumOf (map Simplified.ticketsSold entries) /\
  SimplifiedManager.averageAttendancePerEvent s
  = (if len entries =? 0 then 0%Q
     else oneDecimal (inject_Z (SimplifiedManager.totalAttendance s)
                      / inject_Z (len entries))).
Proof.
  intros Hrun s entries.
  apply simplified_shape in Hrun as [allEvents [w1 [_ [Hall _]]]].
  unfold s, entries.
  cbn [SimplifiedManager.reportSummary SimplifiedManager.eventsThisWeek
       SimplifiedManager.eventsThisMonth SimplifiedManager.totalUpcomingEvents
       SimplifiedManager.totalAttendance SimplifiedManager.averageAttendancePerEvent].
  split; [|split].
  - apply len_filter_le. intros a. unfold JS.le.
    destruct (Simplified.daysFromNow a); [|discriminate]. lia.
  - rewrite fold_left_sum.
    induction Hall as [|ev a ups attended [ra [ba [now ->]]] _ IH];
      [reflexivity|].
    cbn [map sumOf fold_right] in *.
    fold (sumOf (map Simplified.totalAttendance attended))
         (sumOf (map Simplified.rsvpCount attended))
         (sumOf (map Simplified.ticketsSold attended)) in *.
    cbn [Simplified.attend Simplified.totalAttendance Simplified.rsvpCount
         Simplified.ticketsSold]. lia.
  - pose proof (len_nonneg (SimplifiedManager.events data)) as Hn.
    destruct (len (SimplifiedManager.events data) =? 0) eqn:Hz.
    + assert ((0 <? len (SimplifiedManager.events data)) = false) as -> by lia.
      reflexivity.
    + assert ((0 <? len (SimplifiedManager.events data)) = true) as -> by lia.
      reflexivity.
Qed.

Lemma simplified_summary_witness :
  exists data w',
    @SimplifiedManager.getUpcomingEvents (Scripted.upstream Scripted.threeEvents)
                                         5 20 Scripted.june1
    = (Some (Success data), w') /\
    SimplifiedManager.eventsThisWeek (SimplifiedManager.reportSummary data)
    <= SimplifiedManager.eventsThisMonth (SimplifiedManager.reportSummary data)
    <= SimplifiedManager.totalUpcomingEvents (SimplifiedManager.reportSummary data).
Proof.
  eexists. eexists.
  assert (Hrun : @SimplifiedManager.getUpcomingEvents
                   (Scripted.upstream Scripted.threeEvents) 5 20 Scripted.june1
                 = (Some (Success _), _)) by (vm_compute; reflexivity).
  split; [exact Hrun|].
  exact (proj1 (simplified_summary _ _ _ _ _ Hrun)).
Defined.

(** ** The dashboard server ([server.js]) *)

Lemma apiEvents_cases {U : Upstream}
      (fuel : nat) (limitParam : option Z) (cache cache' : Server.Cache)
      (w w' : World) (response : Server.Response) :
  Server.apiEvents fuel limitParam cache w = (Some (response, cache'), w') ->
  (exists report stamp,
      fst (generateTicketReport fuel (JS.numOr limitParam 20) w)
      = Some (Success report) /\
      response = {| Server.code := 200; Server.body := Server.ReportBody report |} /\
      cache' = {| Server.latestReport := Some report;
                  Server.lastUpdated := Some stamp |}) \/
  (exists msg,
      fst (generateTicketReport fuel (JS.numOr limitParam 20) w)
      = Some (Failure msg) /\
      response = {| Server.code := 500; Server.body := Server.ErrorBody msg |} /\
      cache' = cache).
Proof.
  unfold Server.apiEvents.
  destruct (generateTicketReport fuel (JS.numOr limitParam 20) w)
    as [[[report | msg]|] w1]; try discriminate.
  - destruct (Date_now w1) as [stamp w2]. intros H. injection H as <- <- _.
    left. now exists report, stamp.
  - intros H. injection H as <- <- _. right. now exists msg.
Qed.

(** A refresh through [GET /api/events] that is answered 200 stores the
    report it answers with: a read of [GET /api/events/cached] right after
    it answers 200 with that same report and a time of update. *)
Theorem refresh_then_cached {U : Upstream}
        (fuel : nat) (limitParam : option Z) (cache cache' : Server.Cache)
        (w w' : World) (response : Server.Response) :
  Server.apiEvents fuel limitParam cache w = (Some (response, cache'), w') ->
  Server.code response = 200 ->
  exists report stamp,
    Server.body response = Server.ReportBody report /\
    Server.apiCached cache'
    = {| Server.code := 200;
         Server.body := Server.CachedBody report (Some stamp) |}.
Proof.
  intros Hrun Hcode.
  apply apiEvents_cases in Hrun
    as [[report [stamp [_ [-> ->]]]] | [msg [_ [-> _]]]]; [|discriminate].
  now exists report, stamp.
Qed.

Lemma refresh_then_cached_witness :
  exists response cache' w' report stamp,
    @Server.apiEvents (Scripted.upstream Scripted.threeEvents) 5 None
                      Server.emptyCache Scripted.june1
    = (Some (response, cache'), w') /\
    Server.body response = Server.ReportBody report /\
    Server.apiCached cache'
    = {| Server.code := 200;
         Server.body := Server.CachedBody report (Some stamp) |}.
Proof.
  eexists. eexists. eexists.
  assert (Hrun : @Server.apiEvents (Scripted.upstream Scripted.threeEvents) 5 None
                   Server.emptyCache Scripted.june1 = (Some (_, _), _))
    by (vm_compute; reflexivity).
  destruct (refresh_then_cached _ _ _ _ _ _ _ Hrun eq_refl)
    as [report [stamp [Hbody Hcached]]].
  exists report, stamp. split; [exact Hrun|]. split; [exact Hbody | exact Hcached].
Defined.

(** A refresh through [GET /api/events] that is not answered 200 is
    answered 500 with the error message of the failed report, and leaves the
    cached report and its time of update as they were. *)
Theorem failed_refresh_keeps_cache {U : Upstream}
        (fuel : nat) (limitParam : option Z) (cache cache' : Server.Cache)
        (w w' : World) (response : Server.Response) :
  Server.apiEvents fuel limitParam cache w = (Some (response, cache'), w') ->
  Server.code response <> 200 ->
  cache' = cache /\
  Server.code response = 500 /\
  exists msg,
    Server.body response = Server.ErrorBody msg /\
    fst (generateTicketReport fuel (JS.numOr limitParam 20) w) = Some (Failure msg).
Proof.
  intros Hrun Hcode.
  apply apiEvents_cases in Hrun
    as [[report [stamp [_ [-> _]]]] | [msg [Hfail [-> ->]]]].
  - now destruct Hcode.
  - split; [reflexivity|]. split; [reflexivity|]. now exists msg.
Qed.

Lemma failed_refresh_keeps_cache_witness :
  exists response w',
    @Server.apiEvents (Scripted.upstream offline) 5 (Some 10)
                      Server.emptyCache Scripted.june1
    = (Some (response, Server.emptyCache), w') /\
    Server.code response = 500.
Proof.
  eexists. eexists.
  assert (Hrun : @Server.apiEvents (Scripted.upstream offline) 5 (Some 10)
                   Server.emptyCache Scripted.june1 = (Some (_, _), _))
    by (vm_compute; reflexivity).
  split; [exact Hrun|].
  refine (proj1 (proj2 (failed_refresh_keeps_cache _ _ _ _ _ _ _ Hrun _))).
  vm_compute. discriminate.
Defined.





(** ** Further properties of the ticket report *)

Lemma hd_error_nil {A : Type} (l : list A) : hd_error l = None -> l = [].
Proof. destruct l; [reflexivity | discriminate]. Qed.

Lemma slice0_nil {A : Type} (e : Z) : JS.slice0 e (@nil A) = [].
Proof. unfold JS.slice0. destruct (e <? 0); apply firstn_nil. Qed.

(** When no fetched event starts after the time of the filter - the list is
    empty, or all its events are past or undated - [generateTicketReport]
    succeeds with an empty report: no events, zero totals, an average of 0
    and empty top-selling and urgent lists; and it makes no request to the
    ticket endpoint and waits for no delay after the event list is fetched
    (it only reads the clock twice). *)
Theorem no_upcoming_events_report {U : Upstream}
        (fuel : nat) (limit : Z) (w w1 : World) (allEvents : list Event) :
  fetchPages fuel 0 [] w = (Some (inr allEvents), w1) ->
  (forall ev t, In ev allEvents -> startsAt ev t -> t <= fst (Date_now w1)) ->
  exists report,
    generateTicketReport fuel limit w
    = (Some (Success report), snd (Date_now (snd (Date_now w1)))) /\
    report_events report = [] /\
    totalUpcomingEvents (summary report) = 0 /\
    totalTicketsSold (summary report) = 0 /\
    ticketedEventsCount (summary report) = 0 /\
    averageTicketsPerEvent (summary report) = 0%Q /\
    topSellingEvents (summary report) = [] /\
    urgentEvents (summary report) = [].
Proof.
  intros Hfetch Hnone.
  unfold generateTicketReport, getUpcomingEventsWithTickets. rewrite Hfetch.
  destruct (Date_now w1) as [now w2]. cbn [fst snd] in *.
  apply upcoming_head_none, hd_error_nil in Hnone. rewrite Hnone, slice0_nil.
  cbn [enrichLoop]. destruct (Date_now w2) as [stamp w3]. cbn [snd].
  eexists. split; [reflexivity|]. repeat split.
Qed.

Lemma no_upcoming_events_report_witness :
  exists report w',
    @generateTicketReport (Scripted.upstream Scripted.mixedListing) 5 20
                          (Scripted.june1 + 100 * Scripted.day)
    = (Some (Success report), w') /\
    report_events report = [].
Proof.
  destruct (@no_upcoming_events_report (Scripted.upstream Scripted.mixedListing)
              5 20 (Scripted.june1 + 100 * Scripted.day)
              (Scripted.june1 + 100 * Scripted.day)
              [Scripted.jazzNight; Scripted.undated; Scripted.reunion;
               Scripted.garbled; Scripted.gala])
    as [report [Hrun [Hrows _]]].
  - vm_compute. reflexivity.
  - intros ev t Hev Ht.
    change (fst (@Date_now (Scripted.upstream Scripted.mixedListing)
                           (Scripted.june1 + 100 * Scripted.day)))
      with (Scripted.june1 + 100 * Scripted.day).
    unfold startsAt in Ht.
    repeat (destruct Hev as [<- | Hev]; [vm_compute in Ht;
                                         first [discriminate Ht
                                               | injection Ht as <-; vm_compute; discriminate]|]).
    destruct Hev.
  - exists report. eexists. split; [exact Hrun | exact Hrows].
Defined.

(** In every generated report the paid and the free tickets add up to the
    number of ticket records received for the listed events; so when every
    answer of the ticket endpoint reports a total that is at least the
    number of ticket records it carries, [totalPaidTickets] plus
    [totalFreeTickets] is at most [totalTicketsSold]. *)
Theorem report_ticket_totals {U : Upstream}
        (fuel : nat) (limit : Z) (w w' : World) (report : Report) :
  (forall eventId w0 body,
      fst (get_tickets eventId w0) = inr body ->
      len (JS.arrOr (data_tickets body) []) <= JS.numOr (data_total body) 0) ->
  generateTicketReport fuel limit w = (Some (Success report), w') ->
  totalPaidTickets (summary report) = sumOf (map EventRow.paidTickets (report_events report)) /\
  totalFreeTickets (summary report) = sumOf (map EventRow.freeTickets (report_events report)) /\
  totalPaidTickets (summary report) + totalFreeTickets (summary report)
  <= totalTicketsSold (summary report).
Proof.
  intros Hconsistent Hrun.
  apply generateTicketReport_inv in Hrun as [data [Hrun ->]].
  apply enriched_all in Hrun.
  cbn [buildReport summary totalPaidTickets totalFreeTickets totalTicketsSold
       report_events].
  rewrite !fold_left_sum, !map_map. cbn [reportRow EventRow.paidTickets EventRow.freeTickets].
  split; [reflexivity|]. split; [reflexivity|].
  induction Hrun as [|e es He _ IH]; [cbn; lia|].
  cbn [map sumOf fold_right] in *.
  fold (sumOf (map paidTickets es)) (sumOf (map freeTickets es))
       (sumOf (map ticketsSold es)) in *.
  assert (paidTickets e + freeTickets e <= ticketsSold e); [|lia].
  destruct He as [w0 [now He]]. rewrite He.
  cbn [enrichEvent paidTickets freeTickets ticketsSold].
  rewrite (len_partition free).
  destruct (fst (get_tickets (id (event e)) w0)) as [err | body] eqn:Hanswer.
  - cbn. lia.
  - cbn [resultOf ticketsOk tickets total].
    exact (Hconsistent (id (event e)) w0 body Hanswer).
Qed.

Lemma report_ticket_totals_witness :
  exists report w',
    @generateTicketReport (Scripted.upstream Scripted.freeShow) 5 20 Scripted.june1
    = (Some (Success report), w') /\
    totalPaidTickets (summary report) + totalFreeTickets (summary report)
    <= totalTicketsSold (summary report).
Proof.
  eexists. eexists.
  assert (Hrun : @generateTicketReport (Scripted.upstream Scripted.freeShow)
                   5 20 Scripted.june1 = (Some (Success _), _))
    by (vm_compute; reflexivity).
  split; [exact Hrun|].
  assert (Hconsistent :
            forall eventId w0 body,
              fst (@get_tickets (Scripted.upstream Scripted.freeShow) eventId w0) = inr body ->
              len (JS.arrOr (data_tickets body) []) <= JS.numOr (data_total body) 0).
  { intros eventId w0 body Hbody. simpl in Hbody. injection Hbody as <-.
    vm_compute. discriminate. }
  exact (proj2 (proj2 (report_ticket_totals _ _ _ _ _ Hconsistent Hrun))).
Defined.

Lemma lowerChar_idempotent (c : ascii) : JS.lowerChar (JS.lowerChar c) = JS.lowerChar c.
Proof. destruct c as [[] [] [] [] [] [] [] []]; reflexivity. Qed.

Lemma toLowerCase_idempotent (s : string) :
  JS.toLowerCase (JS.toLowerCase s) = JS.toLowerCase s.
Proof.
  induction s as [|c s IH]; cbn [JS.toLowerCase]; [reflexivity|].
  now rewrite lowerChar_idempotent, IH.
Qed.

Lemma toLowerCase_append (s t : string) :
  JS.toLowerCase (s ++ t) = (JS.toLowerCase s ++ JS.toLowerCase t)%string.
Proof.
  induction s as [|c s IH]; cbn [JS.toLowerCase append]; [reflexivity|].
  now rewrite IH.
Qed.

(** The type of an event and its RSVP flag do not depend on the case of the
    letters of the title: a title and its lower-cased form are classified
    alike, and a title that contains a keyword in any mix of cases is
    classified by it. *)
Theorem classification_ignores_case (name : string) :
  categorizeEvent (JS.toLowerCase name) = categorizeEvent name /\
  isRSVPEvent (JS.toLowerCase name) = isRSVPEvent name /\
  (forall before keyword after,
      name = (before ++ keyword ++ after)%string ->
      occursIn (JS.toLowerCase keyword) (JS.toLowerCase name)).
Proof.
  unfold categorizeEvent, isRSVPEvent. rewrite toLowerCase_idempotent.
  split; [reflexivity|]. split; [reflexivity|].
  intros before keyword after ->. rewrite !toLowerCase_append.
  now exists (JS.toLowerCase before), (JS.toLowerCase after).
Qed.

(** ** Pagination of the event list *)



